(** * Stateless execution validator of zk-pig: [src/generator/execute.go]

    A shallow embedding of the [executor] of package [generator] and the
    properties of its pipeline

      Execute -> execute -> prepareContext -> preparePreState
                         -> prepareExecParams -> execEVM.

    The Go code is orchestration glue over go-ethereum and over two helper
    packages ([ethereum], [ethereum/evm]).  Those collaborators are taken as
    the operations of a type class; the functions of [execute.go] itself are
    written out statement by statement in a small state monad over

      - a heap of in-memory key/value databases (one cell per call of
        [rawdb.NewMemoryDatabase]), and
      - the trace of the calls made to the collaborators and to the logger. *)

From Stdlib Require Import ZArith NArith String List Lia DecimalString.
From stdpp Require Import base option list strings.

(** ** Plain data *)

(** [common.Hash]: 32 bytes, read as a number. *)
Definition Hash := N.

(** [hexutil.Bytes] and [[]byte]. *)
Definition Bytes := list Byte.byte.

(** A Go [error] is identified with the text of [Error()], which is what
    [fmt.Errorf("...: %v", err)] prints. *)
Definition error := string.

(** An address in the heap of memory databases. *)
Definition addr := nat.

(** One [tag.With...] call applied to a [context.Context]. *)
Inductive Tag :=
| TagComponent (name : string)
| TagString (key value : string)
| TagInt64 (key : string) (value : Z).

(** The [context.Context] of a call, as far as this file uses it: the tags
    attached so far, oldest first. *)
Definition context_Context := list Tag.

Definition tag_WithComponent (ctx : context_Context) (name : string) : context_Context :=
  ctx ++ [TagComponent name].

Definition tag_WithTags (ctx : context_Context) (tags : list Tag) : context_Context :=
  ctx ++ tags.

Inductive Level := LvlDebug | LvlInfo | LvlError.

(** ** Foreign types *)

Class GethTypes := {
  (** [params.ChainConfig] *)
  ChainConfig : Type;
  (** [types.Header] *)
  Header : Type;
  (** [input.Block] *)
  Block : Type;
  (** [types.Block] *)
  GethBlock : Type;
  (** content of an [ethdb] memory database *)
  Store : Type;
  (** [core.HeaderChain] *)
  HeaderChain : Type;
  (** [state.StateDB] *)
  StateDB : Type;
  (** [core.ProcessResult] *)
  ProcessResult : Type
}.

Section DataModel.
Context `{GethTypes}.

(** [input.Witness].  [Ancestors] is a slice of pointers: an entry may be
    [nil], which [prepareExecParams] tests for.  [State] and [Codes] are
    ranged over in order. *)
Record Witness := {
  State : list Bytes;
  Ancestors : list (option Header);
  Codes : list Bytes
}.

(** [input.ProverInput], with the fields [execute.go] reads. *)
Record ProverInput := {
  ChainConfig_ : ChainConfig;
  Blocks : list Block;
  Witness_ : Witness
}.

(** [vm.Config]; [prepareExecParams] sets one field and leaves the others at
    their zero value. *)
Record vm_Config := {
  StatelessSelfValidation : bool
}.

(** [gethstate.Database]: the state database built by [prepareContext] on top
    of the trie database on top of the memory database; [TrieDB().Disk()]
    leads back to that memory database. *)
Record gethstate_Database := {
  Disk : addr
}.

(** [evm.ExecParams], with the fields [prepareExecParams] sets. *)
Record ExecParams := {
  VMConfig : vm_Config;
  Block_ : GethBlock;
  Validate : bool;
  Chain : HeaderChain;
  State_ : StateDB
}.

(** [executorContext] *)
Record executorContext := {
  ctx : context_Context;
  stateDB : gethstate_Database;
  hc : HeaderChain
}.

(** What a run does to the outside, in order. *)
Inductive Event :=
| EvLog (lvl : Level) (msg : string) (err : option error) (c : context_Context)
| EvNewMemoryDatabase (a : addr)
| EvNewChain (cfg : ChainConfig) (a : addr)
| EvWriteHeaders (a : addr) (headers : list (option Header))
| EvWriteCodes (a : addr) (codes : list Bytes)
| EvWriteNodesToHashDB (a : addr) (nodes : list Bytes)
| EvStateNew (root : Hash) (a : addr)
| EvExecute (c : context_Context) (p : ExecParams).

(** The memory databases allocated so far and the trace of events. *)
Record World := {
  heap : list Store;
  trace : list Event
}.

End DataModel.

(** ** Collaborators *)

Class Geth `{GethTypes} := {
  (** [inputs.ChainConfig.ChainID.String()] *)
  ChainID_String : ChainConfig -> string;
  (** [block.Header] *)
  Block_Header : Block -> Header;
  (** [block.Block()] *)
  Block_Block : Block -> GethBlock;
  (** [header.Hash()] *)
  Header_Hash : Header -> Hash;
  (** [header.ParentHash] *)
  Header_ParentHash : Header -> Hash;
  (** [header.Root] *)
  Header_Root : Header -> Hash;
  (** [header.Number.Int64()] *)
  Header_Number_Int64 : Header -> Z;
  (** [hash.Hex()] *)
  Hash_Hex : Hash -> string;
  (** a [common.Hash] printed with [%v] *)
  Hash_Format : Hash -> string;
  (** content of a database just made by [rawdb.NewMemoryDatabase()] *)
  emptyStore : Store;
  (** [ethereum.NewChain(cfg, stateDB)], acting on the database under
      [stateDB] *)
  NewChain : ChainConfig -> Store -> Store * (HeaderChain + error);
  (** [ethereum.WriteHeaders(db, headers...)]: the database as the call
      leaves it when it returns *)
  WriteHeaders : list (option Header) -> Store -> Store;
  (** whether [ethereum.WriteHeaders(db, headers...)] returns; it is handed
      the [nil] entries of the list as they are, and where it does not
      return it panics *)
  WriteHeaders_returns : list (option Header) -> Store -> bool;
  (** [ethereum.WriteCodes(db, codes...)] *)
  WriteCodes : list Bytes -> Store -> Store;
  (** [ethereum.WriteNodesToHashDB(db, nodes...)] *)
  WriteNodesToHashDB : list Bytes -> Store -> Store;
  (** [gethstate.New(root, stateDB)], reading the database under [stateDB] *)
  gethstate_New : Hash -> Store -> StateDB + error;
  (** [evm.ExecutorWithTags("evm")(evm.ExecutorWithLog()(evm.NewExecutor()))
      .Execute(ctx, params)]: the decorated engine.  [params.Chain] and
      [params.State] refer to the database they were built over; the engine
      acts on its content. *)
  evm_Execute :
    context_Context -> ExecParams -> Store -> Store * (option ProcessResult * option error)
}.

(** ** The effect monad *)

Section Effects.
Context `{Geth}.

Definition Eff (A : Type) : Type := World -> A * World.

Definition ret {A} (x : A) : Eff A := fun w => (x, w).

Definition bind {A B} (m : Eff A) (k : A -> Eff B) : Eff B :=
  fun w => let (x, w') := m w in k x w'.

Definition emit (e : Event) : Eff unit :=
  fun w => (tt, {| heap := heap w; trace := trace w ++ [e] |}).

(** A new database is a new cell at the end of the heap. *)
Definition alloc : Eff addr :=
  fun w => (length (heap w),
            {| heap := heap w ++ [emptyStore]; trace := trace w |}).

Definition load (a : addr) : Eff Store :=
  fun w => (default emptyStore (heap w !! a), w).

Definition store (a : addr) (s : Store) : Eff unit :=
  fun w => (tt, {| heap := <[a := s]> (heap w); trace := trace w |}).

(** Run a collaborator that reads and writes the database at [a]. *)
Definition modify {A} (a : addr) (f : Store -> Store * A) : Eff A :=
  fun w =>
    let r := f (default emptyStore (heap w !! a)) in
    (snd r, {| heap := <[a := fst r]> (heap w); trace := trace w |}).

End Effects.

Declare Scope eff_scope.
Delimit Scope eff_scope with eff.
Notation "x <- m ;; k" := (bind m (fun x => k))
  (at level 100, m at next level, right associativity) : eff_scope.
Notation "m ;;; k" := (bind m (fun _ => k))
  (at level 100, right associativity) : eff_scope.

(** ** [execute.go] *)

Section Generator.
Context `{Geth}.
Open Scope eff_scope.

(** [log.LoggerFromContext(ctx).Level(msg, zap.Error(err))] *)
Definition log (lvl : Level) (c : context_Context) (msg : string) (err : option error)
  : Eff unit :=
  emit (EvLog lvl msg err c).

(** [rawdb.NewMemoryDatabase()] followed by [triedb.NewDatabase] and
    [gethstate.NewDatabase], which wrap it. *)
Definition NewStateDatabase : Eff gethstate_Database :=
  a <- alloc ;;
  emit (EvNewMemoryDatabase a) ;;;
  ret {| Disk := a |}.

Definition ethereum_NewChain (cfg : ChainConfig) (sdb : gethstate_Database)
  : Eff (HeaderChain + error) :=
  emit (EvNewChain cfg (Disk sdb)) ;;;
  modify (Disk sdb) (NewChain cfg).

(** [ethereum.WriteHeaders(db, headers...)] in a run in which it returns;
    [Panicking.ethereum_WriteHeaders] below is the call with its panic. *)
Definition ethereum_WriteHeaders (a : addr) (headers : list (option Header))
  : Eff unit :=
  emit (EvWriteHeaders a headers) ;;;
  modify a (fun s => (WriteHeaders headers s, tt)).

Definition ethereum_WriteCodes (a : addr) (codes : list Bytes) : Eff unit :=
  emit (EvWriteCodes a codes) ;;;
  modify a (fun s => (WriteCodes codes s, tt)).

Definition ethereum_WriteNodesToHashDB (a : addr) (nodes : list Bytes)
  : Eff unit :=
  emit (EvWriteNodesToHashDB a nodes) ;;;
  modify a (fun s => (WriteNodesToHashDB nodes s, tt)).

Definition gethstate_New_ (root : Hash) (sdb : gethstate_Database)
  : Eff (StateDB + error) :=
  emit (EvStateNew root (Disk sdb)) ;;;
  s <- load (Disk sdb) ;;
  ret (gethstate_New root s).

(** [prepareContext], lines 87-105. *)
Definition prepareContext (c : context_Context) (inputs : ProverInput)
  : Eff (executorContext + error) :=
  log LvlDebug c "Prepare context..." None ;;;
  sdb <- NewStateDatabase ;;
  r <- ethereum_NewChain (ChainConfig_ inputs) sdb ;;
  match r with
  | inr err => ret (inr ("failed to create chain: " +:+ err))
  | inl chain => ret (inl {| ctx := c; stateDB := sdb; hc := chain |})
  end.

(** The loops of [preparePreState]: [codes = append(codes, code)] for each
    element in order. *)
Fixpoint appendAll (acc : list Bytes) (l : list Bytes) : list Bytes :=
  match l with
  | [] => acc
  | x :: l' => appendAll (acc ++ [x]) l'
  end.

(** [preparePreState], lines 107-126. *)
Definition preparePreState (ectx : executorContext) (inputs : ProverInput)
  : Eff unit :=
  log LvlInfo (ctx ectx) "Prepare pre-state..." None ;;;
  ethereum_WriteHeaders (Disk (stateDB ectx)) (Ancestors (Witness_ inputs)) ;;;
  let codes := appendAll [] (Codes (Witness_ inputs)) in
  ethereum_WriteCodes (Disk (stateDB ectx)) codes ;;;
  let nodes := appendAll [] (State (Witness_ inputs)) in
  ethereum_WriteNodesToHashDB (Disk (stateDB ectx)) nodes.

(** [prepareExecParams], lines 128-159. *)
Definition prepareExecParams (ectx : executorContext) (inputs : ProverInput)
  : Eff (ExecParams + error) :=
  match Blocks inputs with
  | [] => ret (inr "no blocks provided")
  | block0 :: _ =>
    log LvlDebug (ctx ectx) "Prepare execution parameters..." None ;;;
    match Ancestors (Witness_ inputs) with
    | [] => ret (inr "no ancestors provided")
    | None :: _ =>
      ret (inr "first ancestor must be the parent of the first block")
    | Some parentHeader :: _ =>
      if (Header_Hash parentHeader =? Header_Hash (Block_Header block0))%N
      then ret (inr "first ancestor must be the parent of the first block")
      else
        r <- gethstate_New_ (Header_Root parentHeader) (stateDB ectx) ;;
        match r with
        | inr err =>
          ret (inr ("failed to create pre-state from parent root "
                    +:+ Hash_Format (Header_Root parentHeader)
                    +:+ ": " +:+ err))
        | inl preState =>
          ret (inl {| VMConfig := {| StatelessSelfValidation := true |};
                      Block_ := Block_Block block0;
                      Validate := true;
                      Chain := hc ectx;
                      State_ := preState |})
        end
    end
  end.

(** [execEVM], lines 161-170.  The engine runs against the database that
    [execParams.Chain] and [execParams.State] were built over, the one of
    [ctx.stateDB]. *)
Definition execEVM (ectx : executorContext) (execParams : ExecParams)
  : Eff (option ProcessResult * option error) :=
  log LvlInfo (ctx ectx) "Execute EVM..." None ;;;
  emit (EvExecute (ctx ectx) execParams) ;;;
  r <- modify (Disk (stateDB ectx)) (evm_Execute (ctx ectx) execParams) ;;
  match snd r with
  | Some err => ret (fst r, Some ("failed to execute block: " +:+ err))
  | None => ret (fst r, None)
  end.

(** [execute], lines 69-85. *)
Definition execute (c : context_Context) (inputs : ProverInput)
  : Eff (option ProcessResult * option error) :=
  log LvlInfo c "Process provable execution..." None ;;;
  r <- prepareContext c inputs ;;
  match r with
  | inr err =>
    ret (None, Some ("failed to prepare execution context: " +:+ err))
  | inl execCtx =>
    preparePreState execCtx inputs ;;;
    r' <- prepareExecParams execCtx inputs ;;
    match r' with
    | inr err =>
      ret (None, Some ("failed to prepare execution exec params: " +:+ err))
    | inl execParams => execEVM execCtx execParams
    end
  end.

(** [Execute], lines 37-61. *)
Definition Execute (c : context_Context) (inputs : ProverInput)
  : Eff (option ProcessResult * option error) :=
  match Blocks inputs with
  | [] => ret (None, Some "no blocks provided")
  | block :: _ =>
    let c := tag_WithComponent c "execute" in
    let c := tag_WithTags c
      [ TagString "chain.id" (ChainID_String (ChainConfig_ inputs));
        TagInt64 "block.number" (Header_Number_Int64 (Block_Header block));
        TagString "block.hash" (Hash_Hex (Header_Hash (Block_Header block))) ] in
    r <- execute c inputs ;;
    match snd r with
    | Some err =>
      log LvlError c "Provable execution failed" (Some err) ;;;
      ret r
    | None =>
      log LvlInfo c "Provable execution succeeded" None ;;;
      ret r
    end
  end.

End Generator.

(** ** Runs in which [ethereum.WriteHeaders] may panic

    The functions above describe a run in which every call returns.  The
    only call of [execute.go] that is handed a value before the code has
    looked at it is the one of line 111: the ancestors go to
    [ethereum.WriteHeaders] as the witness has them, [nil] entries included,
    and the [nil] test of line 141 comes later.  The functions below are the
    same lines with that call taken as it is: it returns or it panics, and a
    panic ends the run. *)

Section Outcomes.
Context `{Geth}.

(** How a run ends: it returns a value and leaves a world, or it panics,
    which leaves the events up to there. *)
Inductive Outcome (A : Type) : Type :=
| Returned (r : A * World)
| Panicked (t : list Event).

Definition EffP (A : Type) : Type := World -> Outcome A.

Definition retP {A} (x : A) : EffP A := fun w => Returned A (x, w).

Definition bindP {A B} (m : EffP A) (k : A -> EffP B) : EffP B :=
  fun w =>
    match m w with
    | Returned _ (x, w') => k x w'
    | Panicked _ t => Panicked B t
    end.

(** A computation that always returns. *)
Definition lift {A} (m : Eff A) : EffP A := fun w => Returned A (m w).

Definition panic {A} : EffP A := fun w => Panicked A (trace w).

End Outcomes.

Arguments Returned {_ A} r.
Arguments Panicked {_ A} t.

Declare Scope panic_scope.
Delimit Scope panic_scope with panic.
Notation "x <- m ;; k" := (bindP m (fun x => k))
  (at level 100, m at next level, right associativity) : panic_scope.
Notation "m ;;; k" := (bindP m (fun _ => k))
  (at level 100, right associativity) : panic_scope.

Module Panicking.
Section Generator.
Context `{Geth}.
Open Scope panic_scope.

(** [ethereum.WriteHeaders(db, headers...)], which returns or panics. *)
Definition ethereum_WriteHeaders (a : addr) (headers : list (option Header))
  : EffP unit :=
  lift (emit (EvWriteHeaders a headers)) ;;;
  s <- lift (load a) ;;
  if WriteHeaders_returns headers s
  then lift (store a (WriteHeaders headers s))
  else panic.

(** [preparePreState], lines 107-126. *)
Definition preparePreState (ectx : executorContext) (inputs : ProverInput)
  : EffP unit :=
  lift (log LvlInfo (ctx ectx) "Prepare pre-state..." None) ;;;
  ethereum_WriteHeaders (Disk (stateDB ectx)) (Ancestors (Witness_ inputs)) ;;;
  let codes := appendAll [] (Codes (Witness_ inputs)) in
  lift (ethereum_WriteCodes (Disk (stateDB ectx)) codes) ;;;
  let nodes := appendAll [] (State (Witness_ inputs)) in
  lift (ethereum_WriteNodesToHashDB (Disk (stateDB ectx)) nodes).

(** [execute], lines 69-85. *)
Definition execute (c : context_Context) (inputs : ProverInput)
  : EffP (option ProcessResult * option error) :=
  lift (log LvlInfo c "Process provable execution..." None) ;;;
  r <- lift (prepareContext c inputs) ;;
  match r with
  | inr err =>
    retP (None, Some ("failed to prepare execution context: " +:+ err))
  | inl execCtx =>
    preparePreState execCtx inputs ;;;
    r' <- lift (prepareExecParams execCtx inputs) ;;
    match r' with
    | inr err =>
      retP (None, Some ("failed to prepare execution exec params: " +:+ err))
    | inl execParams => lift (execEVM execCtx execParams)
    end
  end.

(** [Execute], lines 37-61. *)
Definition Execute (c : context_Context) (inputs : ProverInput)
  : EffP (option ProcessResult * option error) :=
  match Blocks inputs with
  | [] => retP (None, Some "no blocks provided")
  | block :: _ =>
    let c := tag_WithComponent c "execute" in
    let c := tag_WithTags c
      [ TagString "chain.id" (ChainID_String (ChainConfig_ inputs));
        TagInt64 "block.number" (Header_Number_Int64 (Block_Header block));
        TagString "block.hash" (Hash_Hex (Header_Hash (Block_Header block))) ] in
    r <- execute c inputs ;;
    match snd r with
    | Some err =>
      lift (log LvlError c "Provable execution failed" (Some err)) ;;;
      retP r
    | None =>
      lift (log LvlInfo c "Provable execution succeeded" None) ;;;
      retP r
    end
  end.

End Generator.
End Panicking.

(** ** Vocabulary for the properties *)

Section Observations.
Context `{Geth}.

Definition result {A} (m : Eff A) (w : World) : A := fst (m w).

Definition after {A} (m : Eff A) (w : World) : World := snd (m w).

(** The events a computation adds to the trace. *)
Definition events_of {A} (m : Eff A) (w : World) : list Event :=
  drop (length (trace w)) (trace (after m w)).

(** Content of the database at [a]. *)
Definition store_at (w : World) (a : addr) : Store :=
  default emptyStore (heap w !! a).

(** The context [Execute] builds at lines 44-50 and passes down. *)
Definition executeContext (c : context_Context) (inputs : ProverInput)
  (block : Block) : context_Context :=
  tag_WithTags (tag_WithComponent c "execute")
    [ TagString "chain.id" (ChainID_String (ChainConfig_ inputs));
      TagInt64 "block.number" (Header_Number_Int64 (Block_Header block));
      TagString "block.hash" (Hash_Hex (Header_Hash (Block_Header block))) ].

(** The database after [preparePreState] has loaded the witness into it. *)
Definition loadWitness (wit : Witness) (s : Store) : Store :=
  WriteNodesToHashDB (State wit)
    (WriteCodes (Codes wit) (WriteHeaders (Ancestors wit) s)).

(** The error of line 142, as [execute] wraps it at line 81. *)
Definition linkageError : error :=
  "failed to prepare execution exec params: "
  +:+ "first ancestor must be the parent of the first block".

(** Events that create, read or write a database. *)
Definition isDatabaseEvent (e : Event) : bool :=
  match e with
  | EvNewMemoryDatabase _ | EvNewChain _ _ | EvWriteHeaders _ _
  | EvWriteCodes _ _ | EvWriteNodesToHashDB _ _ | EvStateNew _ _ => true
  | EvLog _ _ _ _ | EvExecute _ _ => false
  end.

Definition isStateNew (e : Event) : bool :=
  match e with EvStateNew _ _ => true | _ => false end.

Definition isExecute (e : Event) : bool :=
  match e with EvExecute _ _ => true | _ => false end.

(** The events of each stage, as the stage emits them. *)
Definition eventsContext (c : context_Context) (cfg : ChainConfig) (a : addr)
  : list Event :=
  [ EvLog LvlInfo "Process provable execution..." None c;
    EvLog LvlDebug "Prepare context..." None c;
    EvNewMemoryDatabase a;
    EvNewChain cfg a ].

Definition eventsPreState (c : context_Context) (wit : Witness) (a : addr)
  : list Event :=
  [ EvLog LvlInfo "Prepare pre-state..." None c;
    EvWriteHeaders a (Ancestors wit);
    EvWriteCodes a (Codes wit);
    EvWriteNodesToHashDB a (State wit) ].

Definition eventParams (c : context_Context) : Event :=
  EvLog LvlDebug "Prepare execution parameters..." None c.

Definition eventsEVM (c : context_Context) (p : ExecParams) : list Event :=
  [ EvLog LvlInfo "Execute EVM..." None c; EvExecute c p ].

Definition eventFailed (c : context_Context) (e : error) : Event :=
  EvLog LvlError "Provable execution failed" (Some e) c.

Definition eventSucceeded (c : context_Context) : Event :=
  EvLog LvlInfo "Provable execution succeeded" None c.

(** The events up to and including the entry of [prepareExecParams]. *)
Definition eventsUpToParams (c : context_Context) (inputs : ProverInput)
  (a : addr) : list Event :=
  eventsContext c (ChainConfig_ inputs) a
  ++ eventsPreState c (Witness_ inputs) a
  ++ [eventParams c].

(** The bundle of lines 150-158. *)
Definition bundle (block : Block) (chain : HeaderChain) (preState : StateDB)
  : ExecParams :=
  {| VMConfig := {| StatelessSelfValidation := true |};
     Block_ := Block_Block block;
     Validate := true;
     Chain := chain;
     State_ := preState |}.

(** The outcome of a run in which [prepareExecParams] fails with [e] before
    it calls [gethstate.New]: [c] is the tagged context and [s1] the database
    as [NewChain] left it. *)
Definition rejection (c : context_Context) (inputs : ProverInput) (w : World)
  (s1 : Store) (e : error) : (option ProcessResult * option error) * World :=
  (None,
   Some ("failed to prepare execution exec params: " +:+ e),
   {| heap := heap w ++ [loadWitness (Witness_ inputs) s1];
      trace := trace w ++ eventsUpToParams c inputs (length (heap w))
        ++ [eventFailed c ("failed to prepare execution exec params: " +:+ e)] |}).

(** The four stages of [execute], each entered with a log line. *)
Inductive Stage := PrepareContext | PreparePreState | PrepareExecParams | ExecEVM.

Definition stageIndex (st : Stage) : nat :=
  match st with
  | PrepareContext => 0
  | PreparePreState => 1
  | PrepareExecParams => 2
  | ExecEVM => 3
  end.

Definition stageEntry (st : Stage) : string :=
  match st with
  | PrepareContext => "Prepare context..."
  | PreparePreState => "Prepare pre-state..."
  | PrepareExecParams => "Prepare execution parameters..."
  | ExecEVM => "Execute EVM..."
  end.

(** The text put in front of the error of a failing stage (lines 74, 81
    and 166). *)
Definition stageContext (st : Stage) : string :=
  match st with
  | PrepareContext => "failed to prepare execution context: "
  | PreparePreState => ""
  | PrepareExecParams => "failed to prepare execution exec params: "
  | ExecEVM => "failed to execute block: "
  end.

Definition entersStage (st : Stage) (e : Event) : bool :=
  match e with
  | EvLog _ msg _ _ => String.eqb msg (stageEntry st)
  | _ => false
  end.

(** How many times a stage was entered. *)
Definition entries (st : Stage) (evs : list Event) : nat :=
  length (filter (fun e => entersStage st e = true) evs).

End Observations.

(** ** Which stage fails *)

Section StageFailure.
Context `{Geth}.

(** The worlds [execute] passes from stage to stage (lines 70-84). *)
Definition worldContext (c : context_Context) (inputs : ProverInput)
  (w : World) : World :=
  after (prepareContext c inputs)
    (after (log LvlInfo c "Process provable execution..." None) w).

Definition resultContext (c : context_Context) (inputs : ProverInput)
  (w : World) : executorContext + error :=
  result (prepareContext c inputs)
    (after (log LvlInfo c "Process provable execution..." None) w).

Definition worldPreState (execCtx : executorContext) (c : context_Context)
  (inputs : ProverInput) (w : World) : World :=
  after (preparePreState execCtx inputs) (worldContext c inputs w).

Definition resultParams (execCtx : executorContext) (c : context_Context)
  (inputs : ProverInput) (w : World) : ExecParams + error :=
  result (prepareExecParams execCtx inputs) (worldPreState execCtx c inputs w).

Definition worldParams (execCtx : executorContext) (c : context_Context)
  (inputs : ProverInput) (w : World) : World :=
  after (prepareExecParams execCtx inputs) (worldPreState execCtx c inputs w).

(** What the engine answers when [execEVM] calls it at line 164. *)
Definition resultEngine (execCtx : executorContext) (p : ExecParams)
  (c : context_Context) (inputs : ProverInput) (w : World)
  : option ProcessResult * option error :=
  snd (evm_Execute (ctx execCtx) p
         (store_at (worldParams execCtx c inputs w) (Disk (stateDB execCtx)))).

(** [stageFails c inputs w st e]: in the run of [execute c inputs] from [w],
    stage [st] is reached and fails with the internal error [e]. *)
Inductive stageFails (c : context_Context) (inputs : ProverInput) (w : World)
  : Stage -> error -> Prop :=
| contextFails e :
    resultContext c inputs w = inr e ->
    stageFails c inputs w PrepareContext e
| paramsFail execCtx e :
    resultContext c inputs w = inl execCtx ->
    resultParams execCtx c inputs w = inr e ->
    stageFails c inputs w PrepareExecParams e
| engineFails execCtx p e :
    resultContext c inputs w = inl execCtx ->
    resultParams execCtx c inputs w = inl p ->
    snd (resultEngine execCtx p c inputs w) = Some e ->
    stageFails c inputs w ExecEVM e.

(** A rejection that happens before any database is made or touched. *)
Definition rejectedBeforeDatabaseWork (c : context_Context)
  (inputs : ProverInput) (w : World) : Prop :=
  (exists e, result (Execute c inputs) w = (None, Some e)) /\
  heap (after (Execute c inputs) w) = heap w /\
  Forall (fun ev => isDatabaseEvent ev = false) (events_of (Execute c inputs) w).



(** The error [execEVM] returns for the error [oe] of the engine (lines
    165-169). *)
Definition executeBlockError (oe : option error) : option error :=
  match oe with
  | Some e => Some ("failed to execute block: " +:+ e)
  | None => None
  end.


End StageFailure.

(** ** Reading the trace *)

Section Traces.
Context `{Geth}.

(** The context an event was logged or run in. *)
Definition eventContext (ev : Event) : option context_Context :=
  match ev with
  | EvLog _ _ _ c => Some c
  | EvExecute c _ => Some c
  | _ => None
  end.

(** The database an event creates, reads or writes. *)
Definition eventAddr (ev : Event) : option addr :=
  match ev with
  | EvNewMemoryDatabase a | EvNewChain _ a | EvWriteHeaders a _
  | EvWriteCodes a _ | EvWriteNodesToHashDB a _ | EvStateNew _ a => Some a
  | EvLog _ _ _ _ | EvExecute _ _ => None
  end.

(** Events that write the witness into a database. *)
Definition isWrite (ev : Event) : bool :=
  match ev with
  | EvWriteHeaders _ _ | EvWriteCodes _ _ | EvWriteNodesToHashDB _ _ => true
  | _ => false
  end.

Definition isNewMemoryDatabase (ev : Event) : bool :=
  match ev with EvNewMemoryDatabase _ => true | _ => false end.

(** The stages of [execute] in the order of lines 72-84. *)
Definition pipeline : list Stage :=
  [PrepareContext; PreparePreState; PrepareExecParams; ExecEVM].

(** The stage an event is the entry of, if any. *)
Definition stageOf (ev : Event) : option Stage :=
  find (fun st => entersStage st ev) pipeline.

(** The stages entered in a run, in the order they were entered. *)
Definition stagesEntered (evs : list Event) : list Stage :=
  omap stageOf evs.

(** The database work of a whole run on the database at [a], in the order
    of lines 91-96, 110-123 and 145. *)
Definition databaseProtocol (inputs : ProverInput) (a : addr) : list Event :=
  [ EvNewMemoryDatabase a;
    EvNewChain (ChainConfig_ inputs) a;
    EvWriteHeaders a (Ancestors (Witness_ inputs));
    EvWriteCodes a (Codes (Witness_ inputs));
    EvWriteNodesToHashDB a (State (Witness_ inputs)) ]
  ++ match Ancestors (Witness_ inputs) with
     | Some parent :: _ => [EvStateNew (Header_Root parent) a]
     | _ => []
     end.

(** The events a run added to the trace, whether it returned or panicked. *)
Definition outcomeEvents {A} (o : Outcome A) (w : World) : list Event :=
  drop (length (trace w))
    match o with
    | Returned (_, w') => trace w'
    | Panicked t => t
    end.



End Traces.

(** ** A small instance to run the pipeline on

    The collaborators are replaced by executable stand-ins: headers with a
    checksum for a hash, a database that records what was written to it, a
    chain constructor that needs a chain ID, a state constructor that needs
    the root node, and an engine whose transition adds the number of
    transactions to the state root and then validates the outcome against
    the header of the block. *)

Module Sample.

Record header := {
  parentHash : N;
  root : N;
  number : Z;
  nonce : N
}.

Record block := {
  blockHeader : header;
  transactions : list Bytes
}.

Record database := {
  headers : list (option header);
  codes : list Bytes;
  nodes : list Bytes
}.

Record processResult := {
  gasUsed : Z;
  stateRoot : N
}.

Definition checksum (h : header) : N :=
  1 + parentHash h + 2 * root h + 3 * Z.to_N (number h) + 5 * nonce h.

(** The key of a blob: its bytes read as a big-endian number. *)
Definition blobKey (b : Bytes) : N :=
  fold_left (fun acc x => 256 * acc + Byte.to_N x)%N b 0%N.

Definition decimal (n : N) : string :=
  NilZero.string_of_uint (N.to_uint n).

Definition newChain (cfg : option Z) (s : database)
  : database * (Z + error) :=
  match cfg with
  | None => (s, inr "missing chain ID")
  | Some id => (s, inl id)
  end.

Definition openState (r : N) (s : database) : N + error :=
  if existsb (fun n => blobKey n =? r)%N (nodes s)
  then inl r
  else inr "missing trie node".

#[global] Instance types : GethTypes := {|
  ChainConfig := option Z;
  Header := header;
  Block := block;
  GethBlock := block;
  Store := database;
  HeaderChain := Z;
  StateDB := N;
  ProcessResult := processResult
|}.

(** The engine: an empty transaction is invalid; otherwise the block is
    processed and, when [Validate] is set, the state root reached is compared
    with the one the header declares.  A mismatch is reported together with
    the result that was computed. *)
Definition engine (c : context_Context) (p : ExecParams) (s : database)
  : database * (option processResult * option error) :=
  let txs := transactions (Block_ p) in
  if existsb (fun tx => Nat.eqb (length tx) 0) txs
  then (s, (None, Some "invalid transaction"))
  else
    let res := {| gasUsed := 21000 * Z.of_nat (length txs);
                  stateRoot := State_ p + N.of_nat (length txs) |} in
    if Validate p && negb (stateRoot res =? root (blockHeader (Block_ p)))%N
    then (s, (Some res, Some "invalid merkle root"))
    else (s, (Some res, None)).

(** A header can be indexed by hash and number; [nil] cannot. *)
Definition isHeader (h : option header) : bool :=
  match h with Some _ => true | None => false end.

#[global] Instance geth : Geth := {|
  ChainID_String cfg :=
    match cfg with
    | Some id => decimal (Z.to_N id)
    | None => "<nil>"
    end;
  Block_Header := blockHeader;
  Block_Block b := b;
  Header_Hash := checksum;
  Header_ParentHash := parentHash;
  Header_Root := root;
  Header_Number_Int64 := number;
  Hash_Hex := decimal;
  Hash_Format := decimal;
  emptyStore := {| headers := []; codes := []; nodes := [] |};
  NewChain := newChain;
  WriteHeaders hs s :=
    {| headers := headers s ++ hs; codes := codes s; nodes := nodes s |};
  WriteHeaders_returns hs s := forallb isHeader hs;
  WriteCodes cs s :=
    {| headers := headers s; codes := codes s ++ cs; nodes := nodes s |};
  WriteNodesToHashDB ns s :=
    {| headers := headers s; codes := codes s; nodes := nodes s ++ ns |};
  gethstate_New := openState;
  evm_Execute := engine
|}.


(** A chain of three headers and the block on top of the last one. *)
Definition genesis : header :=
  {| parentHash := 0; root := 7; number := 0; nonce := 0 |}.

Definition header1 : header :=
  {| parentHash := checksum genesis; root := 8; number := 1; nonce := 0 |}.

Definition header2 : header :=
  {| parentHash := checksum header1; root := 9; number := 2; nonce := 0 |}.

Definition block2 : block :=
  {| blockHeader := header2; transactions := [[Byte.x01]] |}.

Definition block3 : block :=
  {| blockHeader :=
       {| parentHash := checksum header2; root := 10; number := 3; nonce := 0 |};
     transactions := [] |}.

(** The nodes with keys 7, 8 and 9. *)
Definition node (k : Byte.byte) : Bytes := [k].

Definition witness1 : Witness :=
  {| State := [node Byte.x08];
     Ancestors := [Some header1; Some genesis];
     Codes := [[Byte.x60; Byte.x00]] |}.

(** Block 2 with its parent [header1] and the root node of the parent
    state: a complete input. *)
Definition good : ProverInput :=
  {| ChainConfig_ := Some 1%Z; Blocks := [block2]; Witness_ := witness1 |}.

(** The same, followed by a second block. *)
Definition goodTwoBlocks : ProverInput :=
  {| ChainConfig_ := Some 1%Z; Blocks := [block2; block3];
     Witness_ := witness1 |}.

(** No blocks. *)
Definition noBlocks : ProverInput :=
  {| ChainConfig_ := Some 1%Z; Blocks := []; Witness_ := witness1 |}.

(** No ancestors. *)
Definition noAncestors : ProverInput :=
  {| ChainConfig_ := Some 1%Z; Blocks := [block2];
     Witness_ := {| State := State witness1; Ancestors := [];
                    Codes := Codes witness1 |} |}.

(** A first ancestor that is [nil]. *)
Definition nilAncestor : ProverInput :=
  {| ChainConfig_ := Some 1%Z; Blocks := [block2];
     Witness_ := {| State := State witness1; Ancestors := [None; Some genesis];
                    Codes := Codes witness1 |} |}.

(** The same, with a chain configuration that has no chain ID. *)
Definition nilAncestorNoChainID : ProverInput :=
  {| ChainConfig_ := None; Blocks := [block2];
     Witness_ := {| State := State witness1; Ancestors := [None; Some genesis];
                    Codes := Codes witness1 |} |}.

(** The grandparent in the place of the parent. *)
Definition wrongParent : ProverInput :=
  {| ChainConfig_ := Some 1%Z; Blocks := [block2];
     Witness_ := {| State := [node Byte.x07];
                    Ancestors := [Some genesis];
                    Codes := Codes witness1 |} |}.

(** The parent is right but its root node is not in the witness. *)
Definition missingRoot : ProverInput :=
  {| ChainConfig_ := Some 1%Z; Blocks := [block2];
     Witness_ := {| State := []; Ancestors := Ancestors witness1;
                    Codes := Codes witness1 |} |}.


Definition world0 : World := {| heap := []; trace := [] |}.

End Sample.

(** * Properties *)

(** ** The heap and the trace *)

Section HeapLemmas.
Context `{Geth}.

Lemma heap_lookup_fresh (h : list Store) (s : Store) :
  (h ++ [s]) !! length h = Some s.
Proof. by rewrite list_lookup_middle. Qed.

Lemma heap_insert_fresh (h : list Store) (s s' : Store) :
  <[length h := s']> (h ++ [s]) = h ++ [s'].
Proof.
  replace (length h) with (length h + 0) by lia.
  by rewrite insert_app_r.
Qed.

Lemma appendAll_app (acc l : list Bytes) : appendAll acc l = acc ++ l.
Proof.
  revert acc. induction l as [|x l IH]; intros acc; simpl.
  - by rewrite app_nil_r.
  - rewrite IH. by rewrite <- app_assoc.
Qed.

Lemma appendAll_nil (l : list Bytes) : appendAll [] l = l.
Proof. apply appendAll_app. Qed.

Lemma events_of_app {A} (m : Eff A) (w : World) (evs : list Event) :
  trace (after m w) = trace w ++ evs -> events_of m w = evs.
Proof. intros E. unfold events_of. rewrite E. apply drop_app_length. Qed.

Lemma run_eq {A} (m : Eff A) (w : World) (x : A) (w' : World) :
  m w = (x, w') -> result m w = x /\ after m w = w'.
Proof. unfold result, after. by intros ->. Qed.

End HeapLemmas.

(** Symbolic execution of a run: unfold the monad, then resolve the reads and
    writes of the fresh database and the answers of the collaborators given
    as hypotheses. *)
Ltac unfold_obs :=
  unfold rejection, eventsUpToParams, eventsContext, eventsPreState,
    eventParams, eventsEVM, eventFailed, eventSucceeded, loadWitness, bundle,
    executeContext, linkageError in *.

Ltac unfold_run :=
  unfold worldParams, resultParams, worldPreState, resultContext, worldContext,
    resultEngine, store_at, result, after,
    Execute, execute, prepareContext, preparePreState, prepareExecParams,
    execEVM, NewStateDatabase, ethereum_NewChain, ethereum_WriteHeaders,
    ethereum_WriteCodes, ethereum_WriteNodesToHashDB, gethstate_New_,
    modify, log, bind, ret, emit, alloc, load, store in *.

Ltac step_run :=
  cbn;
  rewrite ?heap_lookup_fresh, ?heap_insert_fresh, ?appendAll_nil.

Ltac finish_run := repeat rewrite <- app_assoc; reflexivity.

(** ** One lemma for each path through [Execute] *)

Section Paths.
Context `{Geth}.
Variables (c : context_Context) (inputs : ProverInput) (w : World).

Lemma Execute_no_blocks :
  Blocks inputs = [] ->
  Execute c inputs w = (None, Some "no blocks provided", w).
Proof. intros Hb. unfold Execute. by rewrite Hb. Qed.

Variables (block : Block) (rest : list Block).
Hypothesis Hblocks : Blocks inputs = block :: rest.

Lemma Execute_chain_fails (s1 : Store) (e : error) :
  NewChain (ChainConfig_ inputs) emptyStore = (s1, inr e) ->
  Execute c inputs w =
  (None,
   Some ("failed to prepare execution context: "
         +:+ "failed to create chain: " +:+ e),
   {| heap := heap w ++ [s1];
      trace := trace w
        ++ eventsContext (executeContext c inputs block) (ChainConfig_ inputs)
             (length (heap w))
        ++ [eventFailed (executeContext c inputs block)
              ("failed to prepare execution context: "
               +:+ "failed to create chain: " +:+ e)] |}).
Proof.
  intros Hc. unfold_obs. unfold_run. rewrite Hblocks.
  repeat (step_run; rewrite ?Hc). finish_run.
Qed.

Variables (s1 : Store) (chain : HeaderChain).
Hypothesis Hchain : NewChain (ChainConfig_ inputs) emptyStore = (s1, inl chain).

Lemma Execute_no_ancestors :
  Ancestors (Witness_ inputs) = [] ->
  Execute c inputs w =
  rejection (executeContext c inputs block) inputs w s1
    "no ancestors provided".
Proof.
  intros Ha. unfold_obs. unfold_run. rewrite Hblocks.
  repeat (step_run; rewrite ?Hchain, ?Ha). finish_run.
Qed.

Lemma Execute_nil_ancestor (more : list (option Header)) :
  Ancestors (Witness_ inputs) = None :: more ->
  Execute c inputs w =
  rejection (executeContext c inputs block) inputs w s1
    "first ancestor must be the parent of the first block".
Proof.
  intros Ha. unfold_obs. unfold_run. rewrite Hblocks.
  repeat (step_run; rewrite ?Hchain, ?Ha). finish_run.
Qed.

Lemma Execute_same_hash (parent : Header) (more : list (option Header)) :
  Ancestors (Witness_ inputs) = Some parent :: more ->
  Header_Hash parent = Header_Hash (Block_Header block) ->
  Execute c inputs w =
  rejection (executeContext c inputs block) inputs w s1
    "first ancestor must be the parent of the first block".
Proof.
  intros Ha Hh. apply N.eqb_eq in Hh. unfold_obs. unfold_run. rewrite Hblocks.
  repeat (step_run; rewrite ?Hchain, ?Ha, ?Hh). finish_run.
Qed.

Variables (parent : Header) (more : list (option Header)).
Hypothesis Hancestors : Ancestors (Witness_ inputs) = Some parent :: more.
Hypothesis Hhash : Header_Hash parent <> Header_Hash (Block_Header block).

Lemma Execute_state_fails (e : error) :
  gethstate_New (Header_Root parent) (loadWitness (Witness_ inputs) s1)
  = inr e ->
  Execute c inputs w =
  (None,
   Some ("failed to prepare execution exec params: "
         +:+ "failed to create pre-state from parent root "
         +:+ Hash_Format (Header_Root parent) +:+ ": " +:+ e),
   {| heap := heap w ++ [loadWitness (Witness_ inputs) s1];
      trace := trace w
        ++ eventsUpToParams (executeContext c inputs block) inputs
             (length (heap w))
        ++ [EvStateNew (Header_Root parent) (length (heap w));
            eventFailed (executeContext c inputs block)
              ("failed to prepare execution exec params: "
               +:+ "failed to create pre-state from parent root "
               +:+ Hash_Format (Header_Root parent) +:+ ": " +:+ e)] |}).
Proof.
  intros Hs. apply N.eqb_neq in Hhash. unfold_obs. unfold_run. rewrite Hblocks.
  rewrite Hancestors in *.
  repeat (step_run; rewrite ?Hchain, ?Hhash, ?Hs). finish_run.
Qed.

Variable preState : StateDB.
Hypothesis Hstate :
  gethstate_New (Header_Root parent) (loadWitness (Witness_ inputs) s1)
  = inl preState.

Lemma Execute_engine_fails (s3 : Store) (res : option ProcessResult)
  (e : error) :
  evm_Execute (executeContext c inputs block) (bundle block chain preState)
    (loadWitness (Witness_ inputs) s1) = (s3, (res, Some e)) ->
  Execute c inputs w =
  (res,
   Some ("failed to execute block: " +:+ e),
   {| heap := heap w ++ [s3];
      trace := trace w
        ++ eventsUpToParams (executeContext c inputs block) inputs
             (length (heap w))
        ++ [EvStateNew (Header_Root parent) (length (heap w))]
        ++ eventsEVM (executeContext c inputs block)
             (bundle block chain preState)
        ++ [eventFailed (executeContext c inputs block)
              ("failed to execute block: " +:+ e)] |}).
Proof.
  intros He. apply N.eqb_neq in Hhash. unfold_obs. unfold_run. rewrite Hblocks.
  rewrite Hancestors in *.
  repeat (step_run; rewrite ?Hchain, ?Hhash, ?Hstate, ?He).
  finish_run.
Qed.

Lemma Execute_engine_succeeds (s3 : Store) (res : option ProcessResult) :
  evm_Execute (executeContext c inputs block) (bundle block chain preState)
    (loadWitness (Witness_ inputs) s1) = (s3, (res, None)) ->
  Execute c inputs w =
  (res, None,
   {| heap := heap w ++ [s3];
      trace := trace w
        ++ eventsUpToParams (executeContext c inputs block) inputs
             (length (heap w))
        ++ [EvStateNew (Header_Root parent) (length (heap w))]
        ++ eventsEVM (executeContext c inputs block)
             (bundle block chain preState)
        ++ [eventSucceeded (executeContext c inputs block)] |}).
Proof.
  intros He. apply N.eqb_neq in Hhash. unfold_obs. unfold_run. rewrite Hblocks.
  rewrite Hancestors in *.
  repeat (step_run; rewrite ?Hchain, ?Hhash, ?Hstate, ?He).
  finish_run.
Qed.

End Paths.

(** ** Reading a run *)

Section Reading.
Context `{Geth}.

Lemma run_facts {A} (m : Eff A) (w : World) (x : A) (h : list Store)
  (evs : list Event) :
  m w = (x, {| heap := h; trace := trace w ++ evs |}) ->
  result m w = x /\ heap (after m w) = h /\ events_of m w = evs.
Proof.
  intros E. unfold events_of, result, after. rewrite E. cbn.
  by rewrite drop_app_length.
Qed.

Lemma run_facts_unchanged {A} (m : Eff A) (w : World) (x : A) :
  m w = (x, w) ->
  result m w = x /\ heap (after m w) = heap w /\ events_of m w = [].
Proof.
  intros E. unfold events_of, result, after. rewrite E. cbn.
  by rewrite drop_all.
Qed.

End Reading.

(** ** The entry check *)

(** C2. With an empty list of blocks [Execute] returns the error
    "no blocks provided" and no result at once: the world it is run in comes
    back as it was, so no database was made or written to and no event, not
    even a log line, was emitted. *)
Theorem C2_empty_blocks_rejected `{Geth} (c : context_Context)
  (inputs : ProverInput) (w : World) :
  Blocks inputs = [] ->
  Execute c inputs w = (None, Some "no blocks provided", w).
Proof. apply Execute_no_blocks. Qed.

Lemma C2_empty_blocks_rejected_witness :
  Execute [] Sample.noBlocks Sample.world0
  = (None, Some "no blocks provided", Sample.world0).
Proof. apply C2_empty_blocks_rejected. reflexivity. Defined.

(** C8. Two inputs with the same chain configuration, the same witness and
    the same first block give the same run of [Execute]: same result, same
    error, and the same effects.  The blocks after the first are never
    read. *)
Theorem C8_trailing_blocks_ignored `{Geth} (c : context_Context)
  (inputs1 inputs2 : ProverInput) (w : World) :
  ChainConfig_ inputs1 = ChainConfig_ inputs2 ->
  Witness_ inputs1 = Witness_ inputs2 ->
  head (Blocks inputs1) = head (Blocks inputs2) ->
  Execute c inputs1 w = Execute c inputs2 w.
Proof.
  destruct inputs1 as [cfg1 bs1 wit1], inputs2 as [cfg2 bs2 wit2]. cbn.
  intros -> -> Hhead.
  destruct bs1 as [|b1 rest1], bs2 as [|b2 rest2]; cbn in Hhead;
    try discriminate; [reflexivity|].
  injection Hhead as ->. reflexivity.
Qed.

Lemma C8_trailing_blocks_ignored_witness :
  Execute [] Sample.good Sample.world0
  = Execute [] Sample.goodTwoBlocks Sample.world0.
Proof. apply C8_trailing_blocks_ignored; reflexivity. Defined.

(** ** The checks of [prepareExecParams] *)

(** C3, as the specification has it, fails: with blocks but no ancestors
    the run is not rejected before database work.  By the time line 135 looks
    at the ancestors, [prepareContext] has made the database and
    [preparePreState] has written the witness into it. *)
Lemma C3_rejected_before_database_work_counterexample :
  Blocks Sample.noAncestors <> [] /\
  Ancestors (Witness_ Sample.noAncestors) = [] /\
  ~ rejectedBeforeDatabaseWork [] Sample.noAncestors Sample.world0.
Proof.
  split; [discriminate|]. split; [reflexivity|].
  intros (_ & Hheap & _). vm_compute in Hheap. discriminate.
Qed.

(** C3, amended.  With at least one block, no ancestors and a chain context
    that could be built, [Execute] returns no result and the error
    "failed to prepare execution exec params: no ancestors provided".  The
    check comes after the database was made and loaded with the witness, and
    before the pre-state view is opened and the engine is run. *)
Theorem C3_no_ancestors_rejected `{Geth} (c : context_Context)
  (inputs : ProverInput) (w : World) (block : Block) (rest : list Block)
  (s1 : Store) (chain : HeaderChain) :
  Blocks inputs = block :: rest ->
  Ancestors (Witness_ inputs) = [] ->
  NewChain (ChainConfig_ inputs) emptyStore = (s1, inl chain) ->
  result (Execute c inputs) w
  = (None,
     Some "failed to prepare execution exec params: no ancestors provided") /\
  heap (after (Execute c inputs) w)
  = heap w ++ [loadWitness (Witness_ inputs) s1] /\
  events_of (Execute c inputs) w
  = eventsUpToParams (executeContext c inputs block) inputs (length (heap w))
    ++ [eventFailed (executeContext c inputs block)
          "failed to prepare execution exec params: no ancestors provided"] /\
  Forall (fun ev => isStateNew ev = false /\ isExecute ev = false)
    (events_of (Execute c inputs) w).
Proof.
  intros Hb Ha Hc.
  destruct (run_facts (Execute c inputs) w _ _ _ (Execute_no_ancestors c inputs w _ _ Hb _ _ Hc Ha))
    as (Hr & Hh & He).
  rewrite Hr, Hh, He. repeat split.
  unfold eventsUpToParams, eventsContext, eventsPreState, eventParams,
    eventFailed.
  repeat constructor.
Qed.

Lemma C3_no_ancestors_rejected_witness :
  result (Execute [] Sample.noAncestors) Sample.world0
  = (None,
     Some "failed to prepare execution exec params: no ancestors provided") /\
  heap (after (Execute [] Sample.noAncestors) Sample.world0)
  = [ {| Sample.headers := [];
         Sample.codes := [[Byte.x60; Byte.x00]];
         Sample.nodes := [[Byte.x08]] |} ].
Proof.
  destruct (C3_no_ancestors_rejected [] Sample.noAncestors Sample.world0
              Sample.block2 [] emptyStore 1%Z) as (Hr & Hh & _);
    [reflexivity | reflexivity | reflexivity |].
  split; [exact Hr | exact Hh].
Defined.

(** ** The linkage check and the pre-state view *)

Section PastTheLinkageCheck.
Context `{Geth}.
Variables (c : context_Context) (inputs : ProverInput) (w : World).
Variables (block : Block) (rest : list Block) (s1 : Store) (chain : HeaderChain).
Variables (parent : Header) (more : list (option Header)).
Hypothesis Hblocks : Blocks inputs = block :: rest.
Hypothesis Hchain : NewChain (ChainConfig_ inputs) emptyStore = (s1, inl chain).
Hypothesis Hancestors : Ancestors (Witness_ inputs) = Some parent :: more.
Hypothesis Hhash : Header_Hash parent <> Header_Hash (Block_Header block).

(** When the hash of the first ancestor is not the hash of the block itself,
    line 145 is reached: the state is opened at the root of that ancestor,
    and whatever comes back is not the linkage error. *)
Lemma Execute_opens_state :
  In (EvStateNew (Header_Root parent) (length (heap w)))
    (events_of (Execute c inputs) w) /\
  snd (result (Execute c inputs) w) <> Some linkageError.
Proof.
  destruct (gethstate_New (Header_Root parent)
              (loadWitness (Witness_ inputs) s1)) as [preState|e] eqn:Hs.
  - destruct (evm_Execute (executeContext c inputs block)
                (bundle block chain preState)
                (loadWitness (Witness_ inputs) s1))
      as [s3 [res [e|]]] eqn:He.
    + destruct (run_facts (Execute c inputs) w _ _ _
        (Execute_engine_fails c inputs w _ _ Hblocks _ _ Hchain _ _
           Hancestors Hhash _ Hs _ _ _ He)) as (Hr & _ & Hev).
      rewrite Hr, Hev. split.
      * apply in_or_app. right. apply in_or_app. left. by left.
      * cbn. unfold linkageError. discriminate.
    + destruct (run_facts (Execute c inputs) w _ _ _
        (Execute_engine_succeeds c inputs w _ _ Hblocks _ _ Hchain _ _
           Hancestors Hhash _ Hs _ _ He)) as (Hr & _ & Hev).
      rewrite Hr, Hev. split.
      * apply in_or_app. right. apply in_or_app. left. by left.
      * cbn. discriminate.
  - destruct (run_facts (Execute c inputs) w _ _ _
      (Execute_state_fails c inputs w _ _ Hblocks _ _ Hchain _ _
         Hancestors Hhash _ Hs)) as (Hr & _ & Hev).
    rewrite Hr, Hev. split.
    + apply in_or_app. right. by left.
    + cbn. unfold linkageError. discriminate.
Qed.

End PastTheLinkageCheck.

(** C1 does not hold of the code: line 141 compares the hash of the first
    ancestor with the hash of the block itself, not with the parent hash the
    block declares.  So when the first ancestor is not the parent of the
    first block (and is not the block's own header either), the run goes on
    to open the pre-state view at the root of that ancestor, and no linkage
    error is returned. *)
Theorem C1_non_parent_passes_linkage_check `{Geth} (c : context_Context)
  (inputs : ProverInput) (w : World) (block : Block) (rest : list Block)
  (s1 : Store) (chain : HeaderChain) (parent : Header)
  (more : list (option Header)) :
  Blocks inputs = block :: rest ->
  NewChain (ChainConfig_ inputs) emptyStore = (s1, inl chain) ->
  Ancestors (Witness_ inputs) = Some parent :: more ->
  Header_Hash parent <> Header_ParentHash (Block_Header block) ->
  Header_Hash parent <> Header_Hash (Block_Header block) ->
  In (EvStateNew (Header_Root parent) (length (heap w)))
    (events_of (Execute c inputs) w) /\
  snd (result (Execute c inputs) w) <> Some linkageError.
Proof.
  intros Hb Hc Ha _ Hh. eapply Execute_opens_state; eassumption.
Qed.

Lemma C1_non_parent_passes_linkage_check_witness :
  Header_Hash Sample.genesis
  <> Header_ParentHash (Block_Header Sample.block2) /\
  In (EvStateNew 7%N 0) (events_of (Execute [] Sample.wrongParent) Sample.world0) /\
  snd (result (Execute [] Sample.wrongParent) Sample.world0)
  <> Some linkageError.
Proof.
  split; [vm_compute; discriminate|].
  exact (C1_non_parent_passes_linkage_check [] Sample.wrongParent Sample.world0
           Sample.block2 [] emptyStore 1%Z Sample.genesis []
           eq_refl eq_refl eq_refl
           ltac:(vm_compute; discriminate) ltac:(vm_compute; discriminate)).
Defined.

(** What the run of the sample with the wrong parent comes to: the block is
    executed on the state of the grandparent, and the failure that is
    reported is the one of the engine. *)
Example wrongParent_run :
  result (Execute [] Sample.wrongParent) Sample.world0
  = (Some {| Sample.gasUsed := 21000; Sample.stateRoot := 8 |},
     Some "failed to execute block: invalid merkle root").
Proof. reflexivity. Qed.

(** C4. When the run reaches the checks of [prepareExecParams] and passes
    them (there is a block, the chain context was built, the first ancestor
    is there and its hash is not the hash of the block), [gethstate.New] is
    called with the state root of the first ancestor on the database that
    holds the witness.  If that call fails with [e], [Execute] returns no
    result and the error

      failed to prepare execution exec params: failed to create pre-state
      from parent root <root>: <e>

    and the engine is not run: the call of [gethstate.New] is the last one
    made to a collaborator. *)
Theorem C4_prestate_opened_at_parent_root `{Geth} (c : context_Context)
  (inputs : ProverInput) (w : World) (block : Block) (rest : list Block)
  (s1 : Store) (chain : HeaderChain) (parent : Header)
  (more : list (option Header)) :
  Blocks inputs = block :: rest ->
  NewChain (ChainConfig_ inputs) emptyStore = (s1, inl chain) ->
  Ancestors (Witness_ inputs) = Some parent :: more ->
  Header_Hash parent <> Header_Hash (Block_Header block) ->
  In (EvStateNew (Header_Root parent) (length (heap w)))
    (events_of (Execute c inputs) w) /\
  forall e : error,
    gethstate_New (Header_Root parent) (loadWitness (Witness_ inputs) s1)
    = inr e ->
    result (Execute c inputs) w
    = (None,
       Some ("failed to prepare execution exec params: "
             +:+ "failed to create pre-state from parent root "
             +:+ Hash_Format (Header_Root parent) +:+ ": " +:+ e)) /\
    heap (after (Execute c inputs) w)
    = heap w ++ [loadWitness (Witness_ inputs) s1] /\
    events_of (Execute c inputs) w
    = eventsUpToParams (executeContext c inputs block) inputs (length (heap w))
      ++ [EvStateNew (Header_Root parent) (length (heap w));
          eventFailed (executeContext c inputs block)
            ("failed to prepare execution exec params: "
             +:+ "failed to create pre-state from parent root "
             +:+ Hash_Format (Header_Root parent) +:+ ": " +:+ e)] /\
    Forall (fun ev => isExecute ev = false) (events_of (Execute c inputs) w).
Proof.
  intros Hb Hc Ha Hh. split.
  - eapply Execute_opens_state; eassumption.
  - intros e Hs.
    destruct (run_facts (Execute c inputs) w _ _ _
      (Execute_state_fails c inputs w _ _ Hb _ _ Hc _ _ Ha Hh _ Hs))
      as (Hr & Hheap & Hev).
    rewrite Hr, Hheap, Hev. repeat split.
    unfold eventsUpToParams, eventsContext, eventsPreState, eventParams,
      eventFailed.
    repeat constructor.
Qed.

Lemma C4_prestate_opened_at_parent_root_witness :
  In (EvStateNew 8%N 0) (events_of (Execute [] Sample.missingRoot) Sample.world0) /\
  result (Execute [] Sample.missingRoot) Sample.world0
  = (None,
     Some ("failed to prepare execution exec params: "
           +:+ "failed to create pre-state from parent root 8: "
           +:+ "missing trie node")).
Proof.
  destruct (C4_prestate_opened_at_parent_root [] Sample.missingRoot
              Sample.world0 Sample.block2 [] emptyStore 1%Z Sample.header1
              [Some Sample.genesis]) as (Hin & Hfail);
    [reflexivity | reflexivity | reflexivity | vm_compute; discriminate |].
  split; [exact Hin|].
  destruct (Hfail "missing trie node") as (Hr & _); [reflexivity | exact Hr].
Defined.

(** ** The stages one by one *)

Section Stages.
Context `{Geth}.
Variables (c : context_Context) (inputs : ProverInput) (w : World).

Lemma resultContext_eq :
  resultContext c inputs w
  = match snd (NewChain (ChainConfig_ inputs) emptyStore) with
    | inl chain =>
      inl {| ctx := c; stateDB := {| Disk := length (heap w) |}; hc := chain |}
    | inr e => inr ("failed to create chain: " +:+ e)
    end.
Proof.
  unfold_run. repeat step_run.
  by destruct (NewChain (ChainConfig_ inputs) emptyStore) as [s [chain|e]].
Qed.

Lemma worldContext_eq :
  worldContext c inputs w
  = {| heap := heap w ++ [fst (NewChain (ChainConfig_ inputs) emptyStore)];
       trace := trace w
         ++ eventsContext c (ChainConfig_ inputs) (length (heap w)) |}.
Proof.
  unfold_obs. unfold_run. repeat step_run.
  destruct (NewChain (ChainConfig_ inputs) emptyStore) as [s [chain|e]];
    cbn; finish_run.
Qed.

Variables (s1 : Store) (chain : HeaderChain).
Hypothesis Hchain : NewChain (ChainConfig_ inputs) emptyStore = (s1, inl chain).

(** The context [prepareContext] returns when the chain could be built. *)
Lemma resultContext_ok :
  resultContext c inputs w
  = inl {| ctx := c; stateDB := {| Disk := length (heap w) |}; hc := chain |}.
Proof. rewrite resultContext_eq. by rewrite Hchain. Qed.

Lemma worldPreState_eq :
  worldPreState
    {| ctx := c; stateDB := {| Disk := length (heap w) |}; hc := chain |}
    c inputs w
  = {| heap := heap w ++ [loadWitness (Witness_ inputs) s1];
       trace := trace w
         ++ eventsContext c (ChainConfig_ inputs) (length (heap w))
         ++ eventsPreState c (Witness_ inputs) (length (heap w)) |}.
Proof.
  unfold worldPreState. rewrite worldContext_eq, Hchain.
  unfold_obs. unfold_run. repeat step_run. finish_run.
Qed.

Variables (block : Block) (rest : list Block).
Hypothesis Hblocks : Blocks inputs = block :: rest.

Lemma resultParams_eq :
  resultParams
    {| ctx := c; stateDB := {| Disk := length (heap w) |}; hc := chain |}
    c inputs w
  = match Ancestors (Witness_ inputs) with
    | [] => inr "no ancestors provided"
    | None :: _ =>
      inr "first ancestor must be the parent of the first block"
    | Some parent :: _ =>
      if (Header_Hash parent =? Header_Hash (Block_Header block))%N
      then inr "first ancestor must be the parent of the first block"
      else
        match gethstate_New (Header_Root parent)
                (loadWitness (Witness_ inputs) s1) with
        | inr e =>
          inr ("failed to create pre-state from parent root "
               +:+ Hash_Format (Header_Root parent) +:+ ": " +:+ e)
        | inl preState => inl (bundle block chain preState)
        end
    end.
Proof.
  unfold resultParams. rewrite worldPreState_eq.
  unfold_obs. unfold_run. rewrite Hblocks.
  destruct (Ancestors (Witness_ inputs)) as [|[parent|] more];
    repeat step_run; try reflexivity.
  destruct (Header_Hash parent =? Header_Hash (Block_Header block))%N;
    repeat step_run; try reflexivity.
  by destruct (gethstate_New _ _).
Qed.

(** [prepareExecParams] leaves the database as it found it. *)
Lemma worldParams_store :
  store_at
    (worldParams
       {| ctx := c; stateDB := {| Disk := length (heap w) |}; hc := chain |}
       c inputs w)
    (length (heap w))
  = loadWitness (Witness_ inputs) s1.
Proof.
  unfold worldParams. rewrite worldPreState_eq.
  unfold_obs. unfold_run. rewrite Hblocks.
  destruct (Ancestors (Witness_ inputs)) as [|[parent|] more];
    repeat step_run; try reflexivity.
  destruct (Header_Hash parent =? Header_Hash (Block_Header block))%N;
    repeat step_run; try reflexivity.
  destruct (gethstate_New _ _); repeat step_run; reflexivity.
Qed.

End Stages.

(** ** All the paths through [Execute]

    A property of the outcome, the final heap and the emitted events of a run
    holds as soon as it holds on each of the eight paths. *)

Section Cases.
Context `{Geth}.
Variables (c : context_Context) (inputs : ProverInput) (w : World).
Variable P :
  option ProcessResult * option error -> list Store -> list Event -> Prop.

Let tagged (block : Block) : context_Context := executeContext c inputs block.
Let a : addr := length (heap w).
Let loaded (s1 : Store) : Store := loadWitness (Witness_ inputs) s1.
Let rejected (block : Block) (s1 : Store) (e : error) : Prop :=
  P (None, Some ("failed to prepare execution exec params: " +:+ e))
    (heap w ++ [loaded s1])
    (eventsUpToParams (tagged block) inputs a
     ++ [eventFailed (tagged block)
           ("failed to prepare execution exec params: " +:+ e)]).

Hypothesis no_blocks :
  Blocks inputs = [] -> P (None, Some "no blocks provided") (heap w) [].

Hypothesis chain_fails : forall block rest s1 e,
  Blocks inputs = block :: rest ->
  NewChain (ChainConfig_ inputs) emptyStore = (s1, inr e) ->
  P (None,
     Some ("failed to prepare execution context: "
           +:+ "failed to create chain: " +:+ e))
    (heap w ++ [s1])
    (eventsContext (tagged block) (ChainConfig_ inputs) a
     ++ [eventFailed (tagged block)
           ("failed to prepare execution context: "
            +:+ "failed to create chain: " +:+ e)]).

Hypothesis no_ancestors : forall block rest s1 chain,
  Blocks inputs = block :: rest ->
  NewChain (ChainConfig_ inputs) emptyStore = (s1, inl chain) ->
  Ancestors (Witness_ inputs) = [] ->
  rejected block s1 "no ancestors provided".

Hypothesis nil_ancestor : forall block rest s1 chain more,
  Blocks inputs = block :: rest ->
  NewChain (ChainConfig_ inputs) emptyStore = (s1, inl chain) ->
  Ancestors (Witness_ inputs) = None :: more ->
  rejected block s1 "first ancestor must be the parent of the first block".

Hypothesis same_hash : forall block rest s1 chain parent more,
  Blocks inputs = block :: rest ->
  NewChain (ChainConfig_ inputs) emptyStore = (s1, inl chain) ->
  Ancestors (Witness_ inputs) = Some parent :: more ->
  Header_Hash parent = Header_Hash (Block_Header block) ->
  rejected block s1 "first ancestor must be the parent of the first block".

Hypothesis state_fails : forall block rest s1 chain parent more e,
  Blocks inputs = block :: rest ->
  NewChain (ChainConfig_ inputs) emptyStore = (s1, inl chain) ->
  Ancestors (Witness_ inputs) = Some parent :: more ->
  Header_Hash parent <> Header_Hash (Block_Header block) ->
  gethstate_New (Header_Root parent) (loaded s1) = inr e ->
  P (None,
     Some ("failed to prepare execution exec params: "
           +:+ "failed to create pre-state from parent root "
           +:+ Hash_Format (Header_Root parent) +:+ ": " +:+ e))
    (heap w ++ [loaded s1])
    (eventsUpToParams (tagged block) inputs a
     ++ [EvStateNew (Header_Root parent) a;
         eventFailed (tagged block)
           ("failed to prepare execution exec params: "
            +:+ "failed to create pre-state from parent root "
            +:+ Hash_Format (Header_Root parent) +:+ ": " +:+ e)]).

Hypothesis engine_fails :
  forall block rest s1 chain parent more preState s3 res e,
  Blocks inputs = block :: rest ->
  NewChain (ChainConfig_ inputs) emptyStore = (s1, inl chain) ->
  Ancestors (Witness_ inputs) = Some parent :: more ->
  Header_Hash parent <> Header_Hash (Block_Header block) ->
  gethstate_New (Header_Root parent) (loaded s1) = inl preState ->
  evm_Execute (tagged block) (bundle block chain preState) (loaded s1)
  = (s3, (res, Some e)) ->
  P (res, Some ("failed to execute block: " +:+ e))
    (heap w ++ [s3])
    (eventsUpToParams (tagged block) inputs a
     ++ [EvStateNew (Header_Root parent) a]
     ++ eventsEVM (tagged block) (bundle block chain preState)
     ++ [eventFailed (tagged block) ("failed to execute block: " +:+ e)]).

Hypothesis engine_succeeds :
  forall block rest s1 chain parent more preState s3 res,
  Blocks inputs = block :: rest ->
  NewChain (ChainConfig_ inputs) emptyStore = (s1, inl chain) ->
  Ancestors (Witness_ inputs) = Some parent :: more ->
  Header_Hash parent <> Header_Hash (Block_Header block) ->
  gethstate_New (Header_Root parent) (loaded s1) = inl preState ->
  evm_Execute (tagged block) (bundle block chain preState) (loaded s1)
  = (s3, (res, None)) ->
  P (res, None)
    (heap w ++ [s3])
    (eventsUpToParams (tagged block) inputs a
     ++ [EvStateNew (Header_Root parent) a]
     ++ eventsEVM (tagged block) (bundle block chain preState)
     ++ [eventSucceeded (tagged block)]).

Lemma Execute_cases :
  P (result (Execute c inputs) w) (heap (after (Execute c inputs) w))
    (events_of (Execute c inputs) w).
Proof.
  destruct (Blocks inputs) as [|block rest] eqn:Hb.
  { destruct (run_facts_unchanged (Execute c inputs) w _
                (Execute_no_blocks c inputs w Hb)) as (-> & -> & ->).
    by apply no_blocks. }
  destruct (NewChain (ChainConfig_ inputs) emptyStore) as [s1 [chain|e]] eqn:Hc.
  2: { destruct (run_facts (Execute c inputs) w _ _ _
                   (Execute_chain_fails c inputs w _ _ Hb _ _ Hc))
         as (-> & -> & ->).
       by eapply chain_fails. }
  destruct (Ancestors (Witness_ inputs)) as [|[parent|] more] eqn:Ha.
  { destruct (run_facts (Execute c inputs) w _ _ _
                (Execute_no_ancestors c inputs w _ _ Hb _ _ Hc Ha))
      as (-> & -> & ->).
    by eapply no_ancestors. }
  2: { destruct (run_facts (Execute c inputs) w _ _ _
                   (Execute_nil_ancestor c inputs w _ _ Hb _ _ Hc _ Ha))
         as (-> & -> & ->).
       by eapply nil_ancestor. }
  destruct (N.eq_dec (Header_Hash parent) (Header_Hash (Block_Header block)))
    as [Hh|Hh].
  { destruct (run_facts (Execute c inputs) w _ _ _
                (Execute_same_hash c inputs w _ _ Hb _ _ Hc _ _ Ha Hh))
      as (-> & -> & ->).
    by eapply same_hash. }
  destruct (gethstate_New (Header_Root parent) (loaded s1))
    as [preState|e] eqn:Hs.
  2: { destruct (run_facts (Execute c inputs) w _ _ _
                   (Execute_state_fails c inputs w _ _ Hb _ _ Hc _ _ Ha Hh _ Hs))
         as (-> & -> & ->).
       by eapply state_fails. }
  destruct (evm_Execute (tagged block) (bundle block chain preState) (loaded s1))
    as [s3 [res [e|]]] eqn:He.
  - destruct (run_facts (Execute c inputs) w _ _ _
                (Execute_engine_fails c inputs w _ _ Hb _ _ Hc _ _ Ha Hh _ Hs
                   _ _ _ He)) as (-> & -> & ->).
    by eapply engine_fails.
  - destruct (run_facts (Execute c inputs) w _ _ _
                (Execute_engine_succeeds c inputs w _ _ Hb _ _ Hc _ _ Ha Hh _ Hs
                   _ _ He)) as (-> & -> & ->).
    by eapply engine_succeeds.
Qed.

End Cases.

(** ** The outcome does not depend on the world *)

Section Determinism.
Context `{Geth}.
Variables (c : context_Context) (inputs : ProverInput).

(** The outcome of a run is the same from every heap and trace: the run
    reads no database but the one it creates. *)
Lemma Execute_result_any_world (w w' : World) :
  result (Execute c inputs) w' = result (Execute c inputs) w.
Proof.
  apply (Execute_cases c inputs w
           (fun out _ _ => result (Execute c inputs) w' = out));
    intros;
    apply (Execute_cases c inputs w' (fun out' _ _ => out' = _));
    intros; congruence.
Qed.

(** A run leaves the databases it found as they were and adds at most one. *)
Lemma Execute_heap_extends (w : World) :
  exists fresh, heap (after (Execute c inputs) w) = heap w ++ fresh
    /\ length fresh <= 1.
Proof.
  apply (Execute_cases c inputs w
           (fun _ h _ => exists fresh, h = heap w ++ fresh /\ length fresh <= 1));
    intros; try (eexists [_]; split; [reflexivity | cbn; lia]).
  exists []. split; [by rewrite app_nil_r | cbn; lia].
Qed.

End Determinism.

(** C9 : running [Execute] twice on the same input, the second run from the
    world the first one left, gives the same result and the same error; so
    does a run from any other world [w'].  Each run works on a database of
    its own: the databases that existed before the call are left as they
    were, and at most one is added. *)
Theorem C9_same_input_same_outcome `{Geth} (c : context_Context)
  (inputs : ProverInput) (w w' : World) :
  result (Execute c inputs) (after (Execute c inputs) w)
  = result (Execute c inputs) w
  /\ result (Execute c inputs) w' = result (Execute c inputs) w
  /\ exists fresh,
       heap (after (Execute c inputs) w) = heap w ++ fresh
       /\ length fresh <= 1.
Proof.
  split; [apply Execute_result_any_world|].
  split; [apply Execute_result_any_world|].
  apply Execute_heap_extends.
Qed.

(** ** What reaches the engine *)

Section Engine.
Context `{Geth}.
Variables (c : context_Context) (inputs : ProverInput) (w : World).

(** The calls of the engine among a list of events. *)
Lemma calls_app (l l' : list Event) :
  filter (fun ev => isExecute ev = true) (l ++ l')
  = filter (fun ev => isExecute ev = true) l
    ++ filter (fun ev => isExecute ev = true) l'.
Proof. apply filter_app. Qed.

Lemma calls_upToParams (c' : context_Context) (a : addr) :
  filter (fun ev => isExecute ev = true) (eventsUpToParams c' inputs a) = [].
Proof. reflexivity. Qed.

Lemma calls_context (c' : context_Context) (a : addr) :
  filter (fun ev => isExecute ev = true)
    (eventsContext c' (ChainConfig_ inputs) a) = [].
Proof. reflexivity. Qed.

End Engine.

Ltac count_calls :=
  repeat rewrite calls_app;
  rewrite ?calls_upToParams, ?calls_context; reflexivity.

(** C5 : when the context and the parameters are prepared without error, the
    bundle [p] that [prepareExecParams] returns holds the first block, the
    chain of the context, the state opened at the root of the first ancestor
    over the database loaded with the witness, [Validate] set and
    [StatelessSelfValidation] set; and the engine is called once, with this
    bundle. *)
Theorem C5_bundle_handed_to_engine `{Geth} (c : context_Context)
  (inputs : ProverInput) (w : World) (block : Block) (rest : list Block)
  (execCtx : executorContext) (p : ExecParams) :
  Blocks inputs = block :: rest ->
  resultContext (executeContext c inputs block) inputs w = inl execCtx ->
  resultParams execCtx (executeContext c inputs block) inputs w = inl p ->
  exists parent more preState,
    Ancestors (Witness_ inputs) = Some parent :: more
    /\ gethstate_New (Header_Root parent)
         (loadWitness (Witness_ inputs)
            (fst (NewChain (ChainConfig_ inputs) emptyStore)))
       = inl preState
    /\ p = {| VMConfig := {| StatelessSelfValidation := true |};
              Block_ := Block_Block block;
              Validate := true;
              Chain := hc execCtx;
              State_ := preState |}
    /\ filter (fun ev => isExecute ev = true) (events_of (Execute c inputs) w)
       = [EvExecute (executeContext c inputs block) p].
Proof.
  intros Hb Hctx Hp.
  rewrite resultContext_eq in Hctx.
  destruct (NewChain (ChainConfig_ inputs) emptyStore) as [s1 [chain|e]] eqn:Hc;
    cbn in Hctx; [|discriminate].
  injection Hctx as <-.
  rewrite (resultParams_eq _ inputs w s1 chain Hc block rest Hb) in Hp.
  destruct (Ancestors (Witness_ inputs)) as [|[parent|] more] eqn:Ha;
    try discriminate.
  destruct (Header_Hash parent =? Header_Hash (Block_Header block))%N eqn:Hh;
    [discriminate|].
  apply N.eqb_neq in Hh.
  destruct (gethstate_New _ _) as [preState|e] eqn:Hs; [|discriminate].
  injection Hp as <-.
  exists parent, more, preState. repeat split; [done|].
  destruct (evm_Execute (executeContext c inputs block)
              (bundle block chain preState) (loadWitness (Witness_ inputs) s1))
    as [s3 [res [e|]]] eqn:He.
  - destruct (run_facts (Execute c inputs) w _ _ _
                (Execute_engine_fails c inputs w _ _ Hb _ _ Hc _ _ Ha Hh _ Hs
                   _ _ _ He)) as (_ & _ & ->).
    count_calls.
  - destruct (run_facts (Execute c inputs) w _ _ _
                (Execute_engine_succeeds c inputs w _ _ Hb _ _ Hc _ _ Ha Hh _ Hs
                   _ _ He)) as (_ & _ & ->).
    count_calls.
Qed.

Lemma C5_bundle_handed_to_engine_witness :
  exists parent more preState,
    Ancestors (Witness_ Sample.good) = Some parent :: more
    /\ gethstate_New (Header_Root parent)
         (loadWitness (Witness_ Sample.good)
            (fst (NewChain (ChainConfig_ Sample.good) emptyStore)))
       = inl preState
    /\ bundle Sample.block2 1%Z 8%N
       = {| VMConfig := {| StatelessSelfValidation := true |};
            Block_ := Block_Block Sample.block2;
            Validate := true;
            Chain := 1%Z;
            State_ := preState |}
    /\ filter (fun ev => isExecute ev = true)
         (events_of (Execute [] Sample.good) Sample.world0)
       = [EvExecute (executeContext [] Sample.good Sample.block2)
            (bundle Sample.block2 1%Z 8%N)].
Proof.
  exact (C5_bundle_handed_to_engine [] Sample.good Sample.world0
           Sample.block2 []
           {| ctx := executeContext [] Sample.good Sample.block2;
              stateDB := {| Disk := 0 |}; hc := 1%Z |}
           (bundle Sample.block2 1%Z 8%N)
           eq_refl eq_refl eq_refl).
Defined.



(** ** Entries of the stages *)

Ltac count_entries :=
  match goal with
  | |- forall st', stageIndex _ < stageIndex st' -> _ =>
    intros [] Hlt; cbn in Hlt; try lia; reflexivity
  | |- forall st', entries st' _ <= 1 =>
    intros []; vm_compute; lia
  | |- _ -> _ = [] => intros _; count_calls
  | |- _ -> _ = [] => let Hne := fresh in intros Hne; by destruct Hne
  end.

(** C7 : when a stage of the pipeline fails with the internal error [e],
    [Execute] returns [e] behind the context message of that stage; no later
    stage is entered, the engine is not called unless it is the engine that
    failed, and no stage is entered twice. *)
Theorem C7_stage_error_wrapped `{Geth} (c : context_Context)
  (inputs : ProverInput) (w : World) (block : Block) (rest : list Block)
  (st : Stage) (e : error) :
  Blocks inputs = block :: rest ->
  stageFails (executeContext c inputs block) inputs w st e ->
  snd (result (Execute c inputs) w) = Some (stageContext st +:+ e)
  /\ (forall st', stageIndex st < stageIndex st' ->
        entries st' (events_of (Execute c inputs) w) = 0)
  /\ (forall st', entries st' (events_of (Execute c inputs) w) <= 1)
  /\ (st <> ExecEVM ->
      filter (fun ev => isExecute ev = true) (events_of (Execute c inputs) w)
      = []).
Proof.
  intros Hb Hfail.
  destruct Hfail as [e Hctx | execCtx e Hctx Hp | execCtx p e Hctx Hp He];
    rewrite resultContext_eq in Hctx;
    destruct (NewChain (ChainConfig_ inputs) emptyStore)
      as [s1 [chain|e0]] eqn:Hc;
    cbn in Hctx; try discriminate.
  - injection Hctx as <-.
    destruct (run_facts (Execute c inputs) w _ _ _
                (Execute_chain_fails c inputs w _ _ Hb _ _ Hc))
      as (-> & _ & ->).
    repeat split; count_entries.
  - injection Hctx as <-.
    rewrite (resultParams_eq _ inputs w s1 chain Hc block rest Hb) in Hp.
    destruct (Ancestors (Witness_ inputs)) as [|[parent|] more] eqn:Ha.
    + injection Hp as <-.
      destruct (run_facts (Execute c inputs) w _ _ _
                  (Execute_no_ancestors c inputs w _ _ Hb _ _ Hc Ha))
        as (-> & _ & ->).
      repeat split; count_entries.
    + destruct (Header_Hash parent =? Header_Hash (Block_Header block))%N
        eqn:Hh.
      * injection Hp as <-. apply N.eqb_eq in Hh.
        destruct (run_facts (Execute c inputs) w _ _ _
                    (Execute_same_hash c inputs w _ _ Hb _ _ Hc _ _ Ha Hh))
          as (-> & _ & ->).
        repeat split; count_entries.
      * apply N.eqb_neq in Hh.
        destruct (gethstate_New _ _) as [preState|e1] eqn:Hs; [discriminate|].
        injection Hp as <-.
        destruct (run_facts (Execute c inputs) w _ _ _
                    (Execute_state_fails c inputs w _ _ Hb _ _ Hc _ _ Ha Hh
                       _ Hs)) as (-> & _ & ->).
        repeat split; count_entries.
    + injection Hp as <-.
      destruct (run_facts (Execute c inputs) w _ _ _
                  (Execute_nil_ancestor c inputs w _ _ Hb _ _ Hc _ Ha))
        as (-> & _ & ->).
      repeat split; count_entries.
  - injection Hctx as <-.
    unfold resultEngine in He. cbn [ctx stateDB Disk] in He.
    rewrite (worldParams_store _ inputs w s1 chain Hc block rest Hb) in He.
    rewrite (resultParams_eq _ inputs w s1 chain Hc block rest Hb) in Hp.
    destruct (Ancestors (Witness_ inputs)) as [|[parent|] more] eqn:Ha;
      try discriminate.
    destruct (Header_Hash parent =? Header_Hash (Block_Header block))%N
      eqn:Hh; [discriminate|].
    apply N.eqb_neq in Hh.
    destruct (gethstate_New _ _) as [preState|e1] eqn:Hs; [|discriminate].
    injection Hp as <-.
    destruct (evm_Execute (executeContext c inputs block)
                (bundle block chain preState)
                (loadWitness (Witness_ inputs) s1))
      as [s3 [res oe]] eqn:Hrun.
    cbn in He. subst oe.
    destruct (run_facts (Execute c inputs) w _ _ _
                (Execute_engine_fails c inputs w _ _ Hb _ _ Hc _ _ Ha Hh _ Hs
                   _ _ _ Hrun)) as (-> & _ & ->).
    repeat split; count_entries.
Qed.

Lemma C7_stage_error_wrapped_witness :
  snd (result (Execute [] Sample.missingRoot) Sample.world0)
  = Some (stageContext PrepareExecParams
          +:+ "failed to create pre-state from parent root 8: missing trie node")
  /\ (forall st', stageIndex PrepareExecParams < stageIndex st' ->
        entries st' (events_of (Execute [] Sample.missingRoot) Sample.world0)
        = 0)
  /\ (forall st',
        entries st' (events_of (Execute [] Sample.missingRoot) Sample.world0)
        <= 1)
  /\ (PrepareExecParams <> ExecEVM ->
      filter (fun ev => isExecute ev = true)
        (events_of (Execute [] Sample.missingRoot) Sample.world0)
      = []).
Proof.
  apply (C7_stage_error_wrapped [] Sample.missingRoot Sample.world0
           Sample.block2 []); [reflexivity|].
  eapply paramsFail; reflexivity.
Defined.

(** * Further properties of [execute.go] *)

Ltac each_event :=
  unfold_obs; cbn;
  repeat first [apply Forall_nil_2 | apply Forall_cons_2].

(** X1 : every log line that the functions of [execute.go] write in a run
    (lines 54, 58, 70, 88, 108, 133 and 162), and the context they hand to
    the decorated engine at line 164, carry the context that [Execute] tags
    at lines 44-50 with the component "execute", the chain id, and the number
    and hash of the first block.  What the engine and its decorators log
    themselves is theirs and is not in the trace. *)
Theorem Execute_events_tagged `{Geth} (c : context_Context)
  (inputs : ProverInput) (w : World) :
  Forall (fun ev => forall c', eventContext ev = Some c' ->
            exists block, head (Blocks inputs) = Some block
              /\ c' = executeContext c inputs block)
    (events_of (Execute c inputs) w).
Proof.
  apply (Execute_cases c inputs w
           (fun _ _ evs =>
              Forall (fun ev => forall c', eventContext ev = Some c' ->
                        exists block, head (Blocks inputs) = Some block
                          /\ c' = executeContext c inputs block) evs));
    intros; each_event;
    intros c' Hc'; cbn in Hc'; try discriminate;
    injection Hc' as <-; eexists; (split; [|reflexivity]);
    match goal with Hb : Blocks inputs = _ |- _ => by rewrite Hb end.
Qed.



(** X3 : a run creates one database when there is a block and none
    otherwise, at an address no database had before; every database event of
    the run is on that database, and the databases that were there before
    the run are as they were. *)
Theorem Execute_own_database `{Geth} (c : context_Context)
  (inputs : ProverInput) (w : World) :
  Forall (fun ev => forall a, eventAddr ev = Some a -> a = length (heap w))
    (events_of (Execute c inputs) w)
  /\ length (filter (fun ev => isNewMemoryDatabase ev = true)
               (events_of (Execute c inputs) w))
     = match Blocks inputs with [] => 0 | _ => 1 end
  /\ length (heap (after (Execute c inputs) w))
     = length (heap w) + match Blocks inputs with [] => 0 | _ => 1 end
  /\ take (length (heap w)) (heap (after (Execute c inputs) w)) = heap w.
Proof.
  apply (Execute_cases c inputs w
           (fun _ h evs =>
              Forall (fun ev => forall a, eventAddr ev = Some a ->
                        a = length (heap w)) evs
              /\ length (filter (fun ev => isNewMemoryDatabase ev = true) evs)
                 = match Blocks inputs with [] => 0 | _ => 1 end
              /\ length h
                 = length (heap w)
                   + match Blocks inputs with [] => 0 | _ => 1 end
              /\ take (length (heap w)) h = heap w));
    intros;
    match goal with Hb : Blocks inputs = _ |- _ => rewrite Hb end;
    (split; [each_event; intros a' Ha'; cbn in Ha'; congruence|]);
    (split; [reflexivity|]);
    rewrite ?length_app, ?take_app_length; cbn; split;
      first [lia | reflexivity | by rewrite firstn_all].
Qed.

(** ** The stages on their own *)

Section StagesAlone.
Context `{Geth}.

Lemma heap_lookup_insert (h : list Store) (a : addr) (s : Store) :
  a < length h -> default emptyStore (<[a := s]> h !! a) = s.
Proof.
  revert a. induction h as [|x h IH]; intros [|a] Ha; cbn in *;
    try lia; [reflexivity|].
  apply IH. lia.
Qed.

Lemma heap_insert_twice (h : list Store) (a : addr) (s s' : Store) :
  <[a := s']> (<[a := s]> h) = <[a := s']> h.
Proof.
  revert a. induction h as [|x h IH]; intros [|a]; cbn; try reflexivity.
  by rewrite IH.
Qed.

Lemma heap_lookup_other (h : list Store) (a a' : addr) (s : Store) :
  a' <> a -> <[a := s]> h !! a' = h !! a'.
Proof.
  revert a a'. induction h as [|x h IH]; intros [|a] [|a'] Hne; cbn;
    try reflexivity; try congruence.
  apply IH. congruence.
Qed.

End StagesAlone.

(** X5 : [prepareExecParams] writes to no database, whatever context and
    input it is given: the heap is the same after it as before, and of the
    collaborators it calls at most [gethstate.New], once. *)
Theorem prepareExecParams_read_only `{Geth} (execCtx : executorContext)
  (inputs : ProverInput) (w : World) :
  heap (after (prepareExecParams execCtx inputs) w) = heap w
  /\ Forall (fun ev => isWrite ev = false /\ isExecute ev = false
                       /\ isNewMemoryDatabase ev = false)
       (events_of (prepareExecParams execCtx inputs) w)
  /\ length (filter (fun ev => isStateNew ev = true)
               (events_of (prepareExecParams execCtx inputs) w)) <= 1.
Proof.
  unfold events_of, after, prepareExecParams.
  destruct (Blocks inputs) as [|block rest].
  { cbn. rewrite drop_all. split; [reflexivity|].
    split; [constructor | cbn; lia]. }
  destruct (Ancestors (Witness_ inputs)) as [|[parent|] more];
    unfold_run; cbn; rewrite ?drop_app_length.
  2: destruct (Header_Hash parent =? Header_Hash (Block_Header block))%N;
       cbn; rewrite ?drop_app_length.
  3: destruct (gethstate_New _ _); cbn;
       repeat rewrite <- app_assoc; rewrite ?drop_app_length.
  all: split; [reflexivity|]; split; [|vm_compute; lia].
  all: repeat first [apply Forall_nil_2 | apply Forall_cons_2];
       by repeat split.
Qed.

(** X6 : [prepareExecParams] checks again that there is a block (lines
    129-131), but through [Execute] that check never fires: whatever the
    input, the error [Execute] returns is not the one [execute] would make
    of it. *)
Theorem Execute_second_block_check_dead `{Geth} (c : context_Context)
  (inputs : ProverInput) (w : World) :
  snd (result (Execute c inputs) w)
  <> Some "failed to prepare execution exec params: no blocks provided".
Proof.
  apply (Execute_cases c inputs w
           (fun out _ _ =>
              snd out
              <> Some "failed to prepare execution exec params: no blocks provided"));
    intros; cbn; discriminate.
Qed.



(** X8 : [Execute] returns no error only when the whole pipeline ran: there
    is a block, the chain context was built, the first ancestor is there
    with a hash other than the hash of the block, the state could be opened
    at its root on the loaded database, and the engine, run on the bundle of
    the first block, returned no error.  The result is then the one of the
    engine and the database of the run is as the engine left it. *)
Theorem Execute_success_inversion `{Geth} (c : context_Context)
  (inputs : ProverInput) (w : World) :
  snd (result (Execute c inputs) w) = None ->
  exists block rest s1 chain parent more preState s3 res,
    Blocks inputs = block :: rest
    /\ NewChain (ChainConfig_ inputs) emptyStore = (s1, inl chain)
    /\ Ancestors (Witness_ inputs) = Some parent :: more
    /\ Header_Hash parent <> Header_Hash (Block_Header block)
    /\ gethstate_New (Header_Root parent) (loadWitness (Witness_ inputs) s1)
       = inl preState
    /\ evm_Execute (executeContext c inputs block)
         (bundle block chain preState) (loadWitness (Witness_ inputs) s1)
       = (s3, (res, None))
    /\ result (Execute c inputs) w = (res, None)
    /\ heap (after (Execute c inputs) w) = heap w ++ [s3].
Proof.
  apply (Execute_cases c inputs w
           (fun out h _ =>
              snd out = None ->
              exists block rest s1 chain parent more preState s3 res,
                Blocks inputs = block :: rest
                /\ NewChain (ChainConfig_ inputs) emptyStore = (s1, inl chain)
                /\ Ancestors (Witness_ inputs) = Some parent :: more
                /\ Header_Hash parent <> Header_Hash (Block_Header block)
                /\ gethstate_New (Header_Root parent)
                     (loadWitness (Witness_ inputs) s1) = inl preState
                /\ evm_Execute (executeContext c inputs block)
                     (bundle block chain preState)
                     (loadWitness (Witness_ inputs) s1) = (s3, (res, None))
                /\ out = (res, None)
                /\ h = heap w ++ [s3]));
    intros; try (cbn in *; discriminate).
  do 9 eexists. repeat split; eassumption.
Qed.

Lemma Execute_success_inversion_witness :
  exists block rest s1 chain parent more preState s3 res,
    Blocks Sample.good = block :: rest
    /\ NewChain (ChainConfig_ Sample.good) emptyStore = (s1, inl chain)
    /\ Ancestors (Witness_ Sample.good) = Some parent :: more
    /\ Header_Hash parent <> Header_Hash (Block_Header block)
    /\ gethstate_New (Header_Root parent)
         (loadWitness (Witness_ Sample.good) s1) = inl preState
    /\ evm_Execute (executeContext [] Sample.good block)
         (bundle block chain preState) (loadWitness (Witness_ Sample.good) s1)
       = (s3, (res, None))
    /\ result (Execute [] Sample.good) Sample.world0 = (res, None)
    /\ heap (after (Execute [] Sample.good) Sample.world0)
       = heap Sample.world0 ++ [s3].
Proof.
  apply (Execute_success_inversion [] Sample.good Sample.world0).
  reflexivity.
Defined.

(** X9 : the stages are entered in the order of the pipeline, each at most
    once and none skipped: the stages entered in a run are the first [n] of
    context, pre-state, parameters, engine. *)
Theorem Execute_stage_order `{Geth} (c : context_Context)
  (inputs : ProverInput) (w : World) :
  exists n, stagesEntered (events_of (Execute c inputs) w) = take n pipeline.
Proof.
  apply (Execute_cases c inputs w
           (fun _ _ evs => exists n, stagesEntered evs = take n pipeline));
    intros;
    first [ by exists 0 | by exists 1 | by exists 3 | by exists 4 ].
Qed.

(** X10 : when the chain cannot be built the witness is not written
    anywhere: the database of the run holds what [NewChain] left in it, and
    the run ends with the error of [NewChain] behind the messages of
    [prepareContext] and [execute], whatever the witness holds. *)
Theorem Execute_chain_failure_skips_witness `{Geth} (c : context_Context)
  (inputs : ProverInput) (w : World) (block : Block) (rest : list Block)
  (s1 : Store) (e : error) :
  Blocks inputs = block :: rest ->
  NewChain (ChainConfig_ inputs) emptyStore = (s1, inr e) ->
  result (Execute c inputs) w
  = (None,
     Some ("failed to prepare execution context: "
           +:+ "failed to create chain: " +:+ e))
  /\ heap (after (Execute c inputs) w) = heap w ++ [s1]
  /\ Forall (fun ev => isWrite ev = false /\ isStateNew ev = false
                       /\ isExecute ev = false)
       (events_of (Execute c inputs) w).
Proof.
  intros Hb Hc.
  destruct (run_facts (Execute c inputs) w _ _ _
              (Execute_chain_fails c inputs w _ _ Hb _ _ Hc))
    as (-> & -> & ->).
  split; [reflexivity|]. split; [reflexivity|]. each_event; by repeat split.
Qed.

Lemma Execute_chain_failure_skips_witness_witness :
  result (Execute [] Sample.nilAncestorNoChainID) Sample.world0
  = (None,
     Some ("failed to prepare execution context: "
           +:+ "failed to create chain: " +:+ "missing chain ID"))
  /\ heap (after (Execute [] Sample.nilAncestorNoChainID) Sample.world0)
     = [emptyStore].
Proof.
  destruct (Execute_chain_failure_skips_witness []
              Sample.nilAncestorNoChainID Sample.world0 Sample.block2 []
              emptyStore "missing chain ID")
    as (Hr & Hh & _); [reflexivity | reflexivity |].
  split; [exact Hr | exact Hh].
Defined.

Section ContextAlone.
Context `{Geth}.

(** The run of [prepareContext] from any world. *)
Lemma prepareContext_eq (c : context_Context) (inputs : ProverInput)
  (w : World) :
  prepareContext c inputs w
  = (match snd (NewChain (ChainConfig_ inputs) emptyStore) with
     | inl chain =>
       inl {| ctx := c; stateDB := {| Disk := length (heap w) |}; hc := chain |}
     | inr e => inr ("failed to create chain: " +:+ e)
     end,
     {| heap := heap w ++ [fst (NewChain (ChainConfig_ inputs) emptyStore)];
        trace := trace w
          ++ [ EvLog LvlDebug "Prepare context..." None c;
               EvNewMemoryDatabase (length (heap w));
               EvNewChain (ChainConfig_ inputs) (length (heap w)) ] |}).
Proof.
  unfold_run. repeat step_run.
  destruct (NewChain (ChainConfig_ inputs) emptyStore) as [s [chain|e]];
    cbn; repeat rewrite <- app_assoc; reflexivity.
Qed.

End ContextAlone.

(** X11 : every call of [prepareContext] hands out a database of its own.
    The context it returns points to an address that held no database
    before the call, so the contexts of two calls in a row never share a
    database, and the second call leaves the database of the first as it
    was. *)
Theorem prepareContext_fresh_database `{Geth} (c1 c2 : context_Context)
  (inputs1 inputs2 : ProverInput) (w : World)
  (execCtx1 execCtx2 : executorContext) :
  result (prepareContext c1 inputs1) w = inl execCtx1 ->
  result (prepareContext c2 inputs2) (after (prepareContext c1 inputs1) w)
  = inl execCtx2 ->
  heap w !! Disk (stateDB execCtx1) = None
  /\ Disk (stateDB execCtx1) <> Disk (stateDB execCtx2)
  /\ heap (after (prepareContext c2 inputs2)
             (after (prepareContext c1 inputs1) w))
       !! Disk (stateDB execCtx1)
     = heap (after (prepareContext c1 inputs1) w) !! Disk (stateDB execCtx1)
  /\ ctx execCtx1 = c1 /\ ctx execCtx2 = c2.
Proof.
  unfold result, after. rewrite !prepareContext_eq. cbn.
  destruct (NewChain (ChainConfig_ inputs1) emptyStore) as [s1 [chain1|e1]];
    destruct (NewChain (ChainConfig_ inputs2) emptyStore) as [s2 [chain2|e2]];
    cbn; intros [= <-] [= <-]; cbn.
  rewrite length_app. cbn.
  split; [apply lookup_ge_None_2; lia|].
  split; [lia|].
  split; [|done].
  rewrite (lookup_app_l (heap w ++ [s1])); [done|].
  rewrite length_app. cbn. lia.
Qed.

Lemma prepareContext_fresh_database_witness :
  heap Sample.world0 !! 0 = None
  /\ 0 <> 1
  /\ heap (after (prepareContext [] Sample.good)
             (after (prepareContext [] Sample.good) Sample.world0)) !! 0
     = heap (after (prepareContext [] Sample.good) Sample.world0) !! 0
  /\ [] = ([] : context_Context) /\ [] = ([] : context_Context).
Proof.
  exact (prepareContext_fresh_database [] [] Sample.good Sample.good
           Sample.world0
           {| ctx := []; stateDB := {| Disk := 0 |}; hc := 1%Z |}
           {| ctx := []; stateDB := {| Disk := 1 |}; hc := 1%Z |}
           eq_refl eq_refl).
Defined.

(** X12 : run on a context whose database exists, [execEVM] calls the engine
    once, on the content of that database, and keeps in that database what
    the engine leaves there; it returns the result of the engine as it is
    and wraps its error; it touches no other database. *)
Theorem execEVM_runs_engine `{Geth} (execCtx : executorContext)
  (p : ExecParams) (w : World) :
  Disk (stateDB execCtx) < length (heap w) ->
  let answer :=
    evm_Execute (ctx execCtx) p (store_at w (Disk (stateDB execCtx))) in
  result (execEVM execCtx p) w
  = (fst (snd answer), executeBlockError (snd (snd answer)))
  /\ store_at (after (execEVM execCtx p) w) (Disk (stateDB execCtx))
     = fst answer
  /\ (forall a', a' <> Disk (stateDB execCtx) ->
        heap (after (execEVM execCtx p) w) !! a' = heap w !! a')
  /\ events_of (execEVM execCtx p) w
     = [ EvLog LvlInfo "Execute EVM..." None (ctx execCtx);
         EvExecute (ctx execCtx) p ].
Proof.
  intros Ha answer.
  assert (execEVM execCtx p w
          = ((fst (snd answer), executeBlockError (snd (snd answer))),
             {| heap := <[Disk (stateDB execCtx) := fst answer]> (heap w);
                trace := trace w
                  ++ [ EvLog LvlInfo "Execute EVM..." None (ctx execCtx);
                       EvExecute (ctx execCtx) p ] |})) as E.
  { subst answer. unfold_run. cbn.
    destruct (evm_Execute (ctx execCtx) p
                (default emptyStore (heap w !! Disk (stateDB execCtx))))
      as [s3 [res [e|]]]; cbn; repeat rewrite <- app_assoc; reflexivity. }
  destruct (run_facts (execEVM execCtx p) w _ _ _ E) as (Hr & Hh & Hev).
  unfold store_at at 1. rewrite Hr, Hh, Hev. repeat split.
  - by rewrite heap_lookup_insert.
  - intros a' Hne. by apply heap_lookup_other.
Qed.

Lemma execEVM_runs_engine_witness :
  result
    (execEVM {| ctx := []; stateDB := {| Disk := 0 |}; hc := 1%Z |}
       (bundle Sample.block3 1%Z 9%N))
    {| heap := [emptyStore]; trace := [] |}
  = (Some {| Sample.gasUsed := 0; Sample.stateRoot := 9 |},
     Some "failed to execute block: invalid merkle root").
Proof.
  exact (proj1 (execEVM_runs_engine
                  {| ctx := []; stateDB := {| Disk := 0 |}; hc := 1%Z |}
                  (bundle Sample.block3 1%Z 9%N)
                  {| heap := [emptyStore]; trace := [] |}
                  ltac:(cbn; lia))).
Defined.



(** X14 : the database work of a run follows one protocol and stops where
    the run stops: the database is created, the chain is built on it, the
    headers, the codes and the state nodes of the witness are written, and
    the state is opened at the root of the first ancestor, in this order and
    each at most once.  In particular the state is never opened on a
    database that does not hold the whole witness. *)
Theorem Execute_database_protocol `{Geth} (c : context_Context)
  (inputs : ProverInput) (w : World) :
  exists n,
    filter (fun ev => isDatabaseEvent ev = true)
      (events_of (Execute c inputs) w)
    = take n (databaseProtocol inputs (length (heap w))).
Proof.
  apply (Execute_cases c inputs w
           (fun _ _ evs =>
              exists n,
                filter (fun ev => isDatabaseEvent ev = true) evs
                = take n (databaseProtocol inputs (length (heap w)))));
    intros; unfold databaseProtocol; unfold_obs;
    try match goal with
        | Ha : Ancestors (Witness_ inputs) = Some _ :: _ |- _ => rewrite Ha
        end;
    first [ by exists 0 | by exists 2 | by exists 5 | by exists 6 ].
Qed.

(** * Runs in which [ethereum.WriteHeaders] may panic *)

Ltac unfold_panic :=
  unfold Panicking.Execute, Panicking.execute, Panicking.preparePreState,
    Panicking.ethereum_WriteHeaders, bindP, retP, lift, panic in *.

Section Panics.
Context `{Geth}.

(** Where [WriteHeaders] returns, [preparePreState] returns, and does what
    it does in a run in which every call returns. *)
Lemma preparePreState_returns (execCtx : executorContext)
  (inputs : ProverInput) (w : World) :
  WriteHeaders_returns (Ancestors (Witness_ inputs))
    (store_at w (Disk (stateDB execCtx))) = true ->
  Panicking.preparePreState execCtx inputs w
  = Returned (preparePreState execCtx inputs w).
Proof.
  intros Hr. unfold store_at in Hr. unfold_panic. unfold_run. cbn.
  rewrite Hr. reflexivity.
Qed.

(** Where it panics, the run of [preparePreState] ends at line 111. *)
Lemma preparePreState_panics (execCtx : executorContext)
  (inputs : ProverInput) (w : World) :
  WriteHeaders_returns (Ancestors (Witness_ inputs))
    (store_at w (Disk (stateDB execCtx))) = false ->
  Panicking.preparePreState execCtx inputs w
  = Panicked
      (trace w
       ++ [ EvLog LvlInfo "Prepare pre-state..." None (ctx execCtx);
            EvWriteHeaders (Disk (stateDB execCtx))
              (Ancestors (Witness_ inputs)) ]).
Proof.
  intros Hr. unfold store_at in Hr. unfold_panic. unfold_run. cbn.
  rewrite Hr. cbn. by rewrite <- app_assoc.
Qed.

Variables (c : context_Context) (inputs : ProverInput) (w : World).

(** The run of [Execute] up to the call of [preparePreState]. *)
Lemma Execute_to_preState (block : Block) (rest : list Block) (s1 : Store)
  (chain : HeaderChain) :
  Blocks inputs = block :: rest ->
  NewChain (ChainConfig_ inputs) emptyStore = (s1, inl chain) ->
  store_at (worldContext (executeContext c inputs block) inputs w)
    (length (heap w)) = s1.
Proof.
  intros Hb Hc. rewrite worldContext_eq, Hc. unfold store_at. cbn.
  by rewrite heap_lookup_fresh.
Qed.


End Panics.




(** X4 : run on a context whose database exists, [preparePreState] hands
    the ancestors to [WriteHeaders] first, as the witness has them.  If that
    call returns, the codes and then the state nodes are written after the
    headers, each list whole and in the order of the witness, and no other
    database is touched.  If it panics, the run ends there: neither a code
    nor a node of the witness has been written. *)
Theorem preparePreState_headers_first `{Geth} (execCtx : executorContext)
  (inputs : ProverInput) (w : World) :
  Disk (stateDB execCtx) < length (heap w) ->
  if WriteHeaders_returns (Ancestors (Witness_ inputs))
       (store_at w (Disk (stateDB execCtx)))
  then
    exists w',
      Panicking.preparePreState execCtx inputs w = Returned (tt, w')
      /\ store_at w' (Disk (stateDB execCtx))
         = WriteNodesToHashDB (State (Witness_ inputs))
             (WriteCodes (Codes (Witness_ inputs))
                (WriteHeaders (Ancestors (Witness_ inputs))
                   (store_at w (Disk (stateDB execCtx)))))
      /\ (forall a', a' <> Disk (stateDB execCtx) ->
            heap w' !! a' = heap w !! a')
      /\ outcomeEvents (Panicking.preparePreState execCtx inputs w) w
         = [ EvLog LvlInfo "Prepare pre-state..." None (ctx execCtx);
             EvWriteHeaders (Disk (stateDB execCtx))
               (Ancestors (Witness_ inputs));
             EvWriteCodes (Disk (stateDB execCtx)) (Codes (Witness_ inputs));
             EvWriteNodesToHashDB (Disk (stateDB execCtx))
               (State (Witness_ inputs)) ]
  else
    outcomeEvents (Panicking.preparePreState execCtx inputs w) w
    = [ EvLog LvlInfo "Prepare pre-state..." None (ctx execCtx);
        EvWriteHeaders (Disk (stateDB execCtx))
          (Ancestors (Witness_ inputs)) ]
    /\ forall r, Panicking.preparePreState execCtx inputs w <> Returned r.
Proof.
  intros Ha.
  destruct (WriteHeaders_returns _ _) eqn:Hr.
  - assert (preparePreState execCtx inputs w
            = (tt,
               {| heap :=
                    <[Disk (stateDB execCtx) :=
                        loadWitness (Witness_ inputs)
                          (store_at w (Disk (stateDB execCtx)))]> (heap w);
                  trace := trace w
                    ++ eventsPreState (ctx execCtx) (Witness_ inputs)
                         (Disk (stateDB execCtx)) |})) as E.
    { unfold_obs. unfold_run. cbn.
      rewrite !appendAll_nil.
      rewrite !heap_lookup_insert by (rewrite ?length_insert; exact Ha).
      rewrite !heap_insert_twice. repeat rewrite <- app_assoc. reflexivity. }
    rewrite (preparePreState_returns _ _ _ Hr), E.
    eexists. split; [reflexivity|]. unfold store_at at 1, outcomeEvents.
    cbn [heap trace]. rewrite drop_app_length. split; [|split].
    + by rewrite heap_lookup_insert.
    + intros a' Hne. by apply heap_lookup_other.
    + reflexivity.
  - rewrite (preparePreState_panics _ _ _ Hr). unfold outcomeEvents.
    rewrite drop_app_length. split; [reflexivity | discriminate].
Qed.

Lemma preparePreState_headers_first_witness :
  exists w',
    Panicking.preparePreState
      {| ctx := []; stateDB := {| Disk := 0 |}; hc := 1%Z |} Sample.good
      {| heap := [emptyStore]; trace := [] |}
    = Returned (tt, w')
    /\ store_at w' 0
       = {| Sample.headers := Ancestors Sample.witness1;
            Sample.codes := Codes Sample.witness1;
            Sample.nodes := State Sample.witness1 |}.
Proof.
  pose proof (@preparePreState_headers_first _ Sample.geth
                {| ctx := []; stateDB := {| Disk := 0 |}; hc := 1%Z |}
                Sample.good {| heap := [emptyStore]; trace := [] |}
                ltac:(cbn; lia)) as Hrun.
  cbn in Hrun. destruct Hrun as (w' & Hrun & Hstore & _).
  exists w'. split; [exact Hrun | exact Hstore].
Defined.

(** X15 : the ancestors reach [WriteHeaders] before any check on them.  When
    there is a block, the chain context could be built and [WriteHeaders]
    panics on the ancestors, the run of [Execute] ends in that panic, right
    after the log line of [preparePreState]: it returns nothing, and the
    checks of lines 135 and 141 are not reached. *)
Theorem Execute_panics_before_checks `{Geth} (c : context_Context)
  (inputs : ProverInput) (w : World) (block : Block) (rest : list Block)
  (s1 : Store) (chain : HeaderChain) :
  Blocks inputs = block :: rest ->
  NewChain (ChainConfig_ inputs) emptyStore = (s1, inl chain) ->
  WriteHeaders_returns (Ancestors (Witness_ inputs)) s1 = false ->
  Panicking.Execute c inputs w
  = Panicked
      (trace w
       ++ eventsContext (executeContext c inputs block) (ChainConfig_ inputs)
            (length (heap w))
       ++ [ EvLog LvlInfo "Prepare pre-state..." None
              (executeContext c inputs block);
            EvWriteHeaders (length (heap w)) (Ancestors (Witness_ inputs)) ]).
Proof.
  intros Hb Hc Hr. unfold Panicking.Execute. rewrite Hb.
  unfold Panicking.execute, log, emit, bindP, retP, lift.
  rewrite prepareContext_eq, Hc.
  cbn -[Panicking.preparePreState].
  rewrite preparePreState_panics
    by (unfold store_at; cbn; by rewrite heap_lookup_fresh).
  unfold_obs. cbn. by repeat rewrite <- app_assoc.
Qed.

Lemma Execute_panics_before_checks_witness :
  Panicking.Execute [] Sample.nilAncestor Sample.world0
  = Panicked
      (eventsContext (executeContext [] Sample.nilAncestor Sample.block2)
         (Some 1%Z) 0
       ++ [ EvLog LvlInfo "Prepare pre-state..." None
              (executeContext [] Sample.nilAncestor Sample.block2);
            EvWriteHeaders 0 [None; Some Sample.genesis] ]).
Proof.
  exact (Execute_panics_before_checks [] Sample.nilAncestor Sample.world0
           Sample.block2 [] emptyStore 1%Z eq_refl eq_refl eq_refl).
Defined.
